(** * Aptos vesting flow: the four-stage pipeline and its id generator

    A shallow embedding of [src/id_generator.py] and
    [src/utils/stage_processors.py].

    Modelling conventions.
    - A pandas DataFrame is a [list] of typed rows; every column the code
      reads is a record field, so the tables are the already validated,
      already parsed ones (timestamps are naive datetimes, quantities are
      numbers, no cell is missing except a wallet's address) and an empty
      table still has its columns.  On such tables no statement of the
      stages raises, so the [except] branches are not reached.  Columns
      that no stage reads are left out.
    - Quantities, USD values and reward amounts are exact integers [Z]
      (amounts counted in the smallest unit of the asset); the rounding of
      binary floating point is outside the model.
    - [st.session_state], the counter file and the messages shown through
      [st.warning] / [st.error] form the [World] that every stage threads
      through the state monad [M].
    - [datetime.now()] and the success of writing the counter file are
      inputs of the program: they are the section variables [now] and
      [disk_ok], indexed by the number of ids issued so far. *)

From Stdlib Require Import ZArith List String Ascii Bool Lia Arith.
From Stdlib Require Import Sorted Permutation DecimalString Decimal DecimalNat.
From Stdlib Require Finite.
Import ListNotations.
Local Open Scope list_scope.
Local Open Scope string_scope.

(* ================================================================== *)
(** * Dates and naive timestamps *)
(* ================================================================== *)

(** [datetime.date]: a calendar date. *)
Record date := mkdate { year : nat; month : nat; day : nat }.

(** A naive [datetime] / pandas [Timestamp] (no time zone). *)
Record datetime := mkdatetime {
  dt_date : date;            (* [.date()] / [.dt.date] *)
  hour : nat; minute : nat; second : nat; nanosecond : nat }.

(** [datetime.combine(date, datetime.min.time())]: local midnight. *)
Definition midnight (d : date) : datetime := mkdatetime d 0 0 0 0.

(** [datetime.combine(date, datetime.min.time().replace(hour=12))]. *)
Definition noon (d : date) : datetime := mkdatetime d 12 0 0 0.

Definition date_eqb (a b : date) : bool :=
  (year a =? year b)%nat && (month a =? month b)%nat && (day a =? day b)%nat.

(** Proleptic Gregorian ordinal of a date, as [date.toordinal()] computes
    it ([_ymd2ord] of the Python standard library). *)
Definition is_leap (y : Z) : bool :=
  ((y mod 4 =? 0) && (negb (y mod 100 =? 0) || (y mod 400 =? 0)))%Z.

Definition days_before_year (y : Z) : Z :=
  (let p := y - 1 in p * 365 + p / 4 - p / 100 + p / 400)%Z.

Definition DAYS_BEFORE_MONTH : list Z :=
  [-1; 0; 31; 59; 90; 120; 151; 181; 212; 243; 273; 304; 334]%Z.

Definition days_before_month (y : Z) (m : nat) : Z :=
  (nth m DAYS_BEFORE_MONTH 0 + (if (2 <? m)%nat && is_leap y then 1 else 0))%Z.

Definition toordinal (d : date) : Z :=
  (days_before_year (Z.of_nat (year d))
   + days_before_month (Z.of_nat (year d)) (month d)
   + Z.of_nat (day d))%Z.

Definition ns_per_second : Z := 1000000000%Z.
Definition ns_per_day : Z := (86400 * ns_per_second)%Z.

(** The integer a pandas [Timestamp] is compared by: nanoseconds on the
    naive time line. *)
Definition timestamp_value (t : datetime) : Z :=
  (toordinal (dt_date t) * ns_per_day
   + ((Z.of_nat (hour t) * 60 + Z.of_nat (minute t)) * 60
      + Z.of_nat (second t)) * ns_per_second
   + Z.of_nat (nanosecond t))%Z.

(** [base_date + timedelta(days=n)] on the same time line. *)
Definition plus_days (v : Z) (n : Z) : Z := (v + n * ns_per_day)%Z.

(* ================================================================== *)
(** * Orderings used by [groupby] and [sort_values] *)
(* ================================================================== *)

(** Lexicographic combination of two comparisons. *)
Definition lex (c1 c2 : comparison) : comparison :=
  match c1 with Eq => c2 | _ => c1 end.

(** Python compares dates as (year, month, day) tuples. *)
Definition date_compare (a b : date) : comparison :=
  lex (year a ?= year b)%nat
      (lex (month a ?= month b)%nat (day a ?= day b)%nat).

(** A sort key: a date, then a string compared code point by code point. *)
Definition key : Type := (date * string)%type.

Definition key_compare (a b : key) : comparison :=
  lex (date_compare (fst a) (fst b)) (String.compare (snd a) (snd b)).

Definition key_leb (a b : key) : bool :=
  match key_compare a b with Gt => false | _ => true end.

Definition key_eqb (a b : key) : bool :=
  date_eqb (fst a) (fst b) && String.eqb (snd a) (snd b).

(** A comparison that is a total order. *)
Class OrderedCompare {A : Type} (cmp : A -> A -> comparison) : Prop := {
  cmp_antisym : forall x y, cmp x y = CompOpp (cmp y x);
  cmp_eq : forall x y, cmp x y = Eq -> x = y;
  cmp_trans : forall x y z, cmp x y = Lt -> cmp y z = Lt -> cmp x z = Lt
}.

(** Stable ascending sort on a key, the order [sort_values] on several
    columns and [groupby(sort=True)] produce: an element goes in front of
    the first element of the already sorted rest that is not smaller. *)
Section Sorting.
Context {A : Type} (keyof : A -> key).

Fixpoint insert_by (x : A) (l : list A) : list A :=
  match l with
  | [] => [x]
  | y :: l' =>
      if key_leb (keyof x) (keyof y) then x :: y :: l'
      else y :: insert_by x l'
  end.

Definition sort_by (l : list A) : list A := fold_right insert_by [] l.

End Sorting.

Definition sum_Z (l : list Z) : Z := fold_right Z.add 0%Z l.

(* ================================================================== *)
(** * The tables *)
(* ================================================================== *)

(** Custodian (Anchorage) transaction report. *)
Record AnchorageRow := mkAnchorageRow {
  End_Time : datetime;
  Type_ : string;
  Asset_Quantity_Before_Fee : Z;
  Value_USD : Z;
  Destination_Address : string }.

(** Wallets list; a missing [Addresses] cell (NaN) is [None]. *)
Record WalletRow := mkWalletRow {
  ID : string; Name : string; Addresses : option string }.

(** Vesting wallet pairs. *)
Record VestingPair := mkVestingPair {
  Beneficiary_Wallet : string; Originating_Wallet : string }.

(** Bitwave transactions export (the reward source). *)
Record BitwaveRow := mkBitwaveRow {
  bw_id : string; bw_dateTime : datetime; bw_walletId : string; bw_amount : Z }.

(** Stage-1 output: Date, Wallet Name and the two sums. *)
Record Stage1Row := mkStage1Row {
  Date : date;
  Wallet_Name : string;
  Sum_Quantity : Z;       (* column 'Asset Quantity (Before Fee)' *)
  Sum_Value : Z }.        (* column 'Value (USD)' *)

(** The 21-column ledger import row of stages 2 and 3. *)
Record LedgerRow := mkLedgerRow {
  id : string; remoteContactId : string;
  amount : Z; amountTicker : string;
  cost : option Z;          (* [None] is the empty cell '' of stage 3 *)
  costTicker : string;
  fee : string; feeTicker : string;
  time : datetime;          (* rendered '%m/%d/%Y %H:%M:%S' in the file *)
  blockchainId : string; memo : string;
  transactionType : string; accountId : string;
  contactId : string; categoryId : string; taxExempt : string;
  tradeId : string; description : string;
  fromAddress : string; toAddress : string; groupId : string }.

(** Stage-3 display table. *)
Record DisplayRow := mkDisplayRow {
  disp_Date : date; disp_Wallet_Name : string; disp_Amount : Z }.

(** An element of [st.session_state['stage3_matched_transactions']]. *)
Record MatchRecord := mkMatchRecord {
  m_id : string; bitwave_amount : Z; stage2_amount : Z; calculated_amount : Z }.

(** Stage-4 output. *)
Record IgnoreRow := mkIgnoreRow { transactionID : string; action : string }.

(* ================================================================== *)
(** * The world: session state, counter file, messages *)
(* ================================================================== *)

Inductive Message : Type :=
| Warning (text : string)
| Error (text : string).

Record World := mkWorld {
  id_counter : option Z;    (* st.session_state['id_counter'], if set *)
  counter_file : option Z;  (* 'counter' of data/id_counter.json, if readable *)
  issued : nat;             (* ids issued so far: index of the next clock reading *)
  stage3_matched_transactions : option (list MatchRecord);
  messages : list Message   (* st.warning / st.error, oldest first *)
}.

Definition M (A : Type) : Type := World -> A * World.

Definition ret {A} (a : A) : M A := fun w => (a, w).

Definition bind {A B} (m : M A) (f : A -> M B) : M B :=
  fun w => let (a, w') := m w in f a w'.

Notation "x <- m ;; k" := (bind m (fun x => k))
  (at level 61, m at next level, right associativity).
Notation "m ;;; k" := (bind m (fun _ => k))
  (at level 61, right associativity).

Definition say (msg : Message) : M unit :=
  fun w => (tt, mkWorld (id_counter w) (counter_file w) (issued w)
                        (stage3_matched_transactions w) (messages w ++ [msg])%list).

Definition st_warning (text : string) : M unit := say (Warning text).
Definition st_error (text : string) : M unit := say (Error text).

(** A [for] loop over the rows of a table that appends to output lists. *)
Fixpoint for_each {A B} (body : A -> M (list B)) (rows : list A) : M (list B) :=
  match rows with
  | [] => ret []
  | r :: rows' =>
      out <- body r ;;
      rest <- for_each body rows' ;;
      ret (out ++ rest)%list
  end.

(* ================================================================== *)
(** * String helpers: the pieces of Python formatting the code uses *)
(* ================================================================== *)

(** [str(n)] for a natural number. *)
Definition digits (n : nat) : string := NilZero.string_of_uint (Nat.to_uint n).

Fixpoint zeros (n : nat) : string :=
  match n with O => "" | S n' => String "0" (zeros n') end.

(** Left padding with zeros up to [width] characters, as [%02d] does to a
    natural number; longer strings are left alone. *)
Definition zfill (width : nat) (s : string) : string :=
  zeros (width - String.length s) ++ s.

(** The format specification [:06d] of an f-string: the sign counts in the
    width. *)
Definition format_06d (z : Z) : string :=
  if (z <? 0)%Z then "-" ++ zfill 5 (digits (Z.to_nat (- z)))
  else zfill 6 (digits (Z.to_nat z)).

(** [t.strftime("%Y%m%d%H%M%S")]. *)
Definition strftime_YmdHMS (t : datetime) : string :=
  zfill 4 (digits (year (dt_date t))) ++ zfill 2 (digits (month (dt_date t)))
  ++ zfill 2 (digits (day (dt_date t))) ++ zfill 2 (digits (hour t))
  ++ zfill 2 (digits (minute t)) ++ zfill 2 (digits (second t)).

(** [d.strftime('%m%d%y')]. *)
Definition strftime_mdy (d : date) : string :=
  zfill 2 (digits (month d)) ++ zfill 2 (digits (day d))
  ++ zfill 2 (digits (year d mod 100)).

(** The datetimes whose [%Y] has four digits and whose other fields are in
    the ranges Python's [datetime] enforces. *)
Definition valid_datetime (t : datetime) : Prop :=
  (String.length (digits (year (dt_date t))) = 4 /\ 1 <= month (dt_date t) <= 12
   /\ 1 <= day (dt_date t) <= 31 /\ hour t < 24 /\ minute t < 60
   /\ second t < 60)%nat.

Definition is_digit (c : ascii) : bool :=
  (48 <=? nat_of_ascii c)%nat && (nat_of_ascii c <=? 57)%nat.

Definition all_digits (s : string) : bool :=
  forallb is_digit (list_ascii_of_string s).

(** [int(s)] for a string of decimal digits. *)
Definition parse_nat (s : string) : option nat :=
  option_map Nat.of_uint (NilEmpty.uint_of_string s).

(** Reads back what [format_06d] writes. *)
Definition parse_06d (s : string) : option Z :=
  match s with
  | String "-" s' => option_map (fun n => (- Z.of_nat n)%Z) (parse_nat s')
  | _ => option_map Z.of_nat (parse_nat s)
  end.

(** [s.replace(old, new)] for a non-empty [old]: every occurrence, scanned
    from the left without overlap.  [skip] counts the characters of a
    replaced occurrence still to be dropped. *)
Fixpoint replace_from (old new : string) (skip : nat) (s : string) : string :=
  match s with
  | EmptyString => EmptyString
  | String c s' =>
      match skip with
      | S k => replace_from old new k s'
      | O =>
          if String.prefix old s
          then new ++ replace_from old new (String.length old - 1) s'
          else String c (replace_from old new 0 s')
      end
  end.

Definition str_replace (s old new : string) : string := replace_from old new 0 s.

(** [s.startswith(p)]. *)
Definition startswith (s p : string) : bool := String.prefix p s.

(* ================================================================== *)
(** * [UniqueIDGenerator] *)
(* ================================================================== *)

Definition set_id_counter (c : option Z) (w : World) : World :=
  mkWorld c (counter_file w) (issued w) (stage3_matched_transactions w) (messages w).

Definition set_counter_file (f : option Z) (w : World) : World :=
  mkWorld (id_counter w) f (issued w) (stage3_matched_transactions w) (messages w).

Definition set_issued (n : nat) (w : World) : World :=
  mkWorld (id_counter w) (counter_file w) n (stage3_matched_transactions w) (messages w).

Definition set_matched (l : option (list MatchRecord)) (w : World) : World :=
  mkWorld (id_counter w) (counter_file w) (issued w) l (messages w).

(** The counter a session works with: its own when it has one, else the
    file's, else 1. *)
Definition loaded_counter (w : World) : Z :=
  match id_counter w with
  | Some c => c
  | None => match counter_file w with Some c => c | None => 1%Z end
  end.

(** [f"VT{timestamp}{current_id:06d}"]. *)
Definition unique_id (timestamp : string) (current_id : Z) : string :=
  "VT" ++ timestamp ++ format_06d current_id.

(** [load_counter]: only when the session has no counter yet; the file's
    counter, or 1 when the file is missing, unreadable or has no such key. *)
Definition load_counter : M unit := fun w =>
  match id_counter w with
  | Some _ => (tt, w)
  | None =>
      (tt, set_id_counter
             (Some match counter_file w with Some c => c | None => 1%Z end) w)
  end.

Section Environment.
(** The clock reading taken for the [i]-th id issued. *)
Variable now : nat -> datetime.
(** Whether the counter file can be written after the [i]-th issuance. *)
Variable disk_ok : nat -> bool.

(** [save_counter]: a failed write is swallowed ([except: pass]). *)
Definition save_counter : M unit := fun w =>
  if disk_ok (issued w) then (tt, set_counter_file (id_counter w) w)
  else (tt, w).

(** [get_next_id]; the session counter exists, [__init__] has loaded it. *)
Definition get_next_id : M string := fun w =>
  match id_counter w with
  | None => (EmptyString, w)
  | Some current_id =>
      let w1 := set_id_counter (Some (current_id + 1)%Z) w in
      let (_, w2) := save_counter w1 in
      let timestamp := strftime_YmdHMS (now (issued w2)) in
      (unique_id timestamp current_id, set_issued (S (issued w2)) w2)
  end.

(** [get_id_generator()]: a new generator object, whose constructor loads
    the counter. *)
Definition get_id_generator : M unit := load_counter.

(** [get_id_generator().get_next_id()], as the stages call it. *)
Definition next_id : M string := get_id_generator ;;; get_next_id.

(** [get_multiple_ids(count)]. *)
Fixpoint get_multiple_ids (count : nat) : M (list string) :=
  match count with
  | O => ret []
  | S n =>
      i <- get_next_id ;;
      ids <- get_multiple_ids n ;;
      ret (i :: ids)
  end.

End Environment.

(* ================================================================== *)
(** * Stage 1: vesting outflows per Anchorage file *)
(* ================================================================== *)

Definition is_balance_adjustment (r : AnchorageRow) : bool :=
  Type_ r =? "Balance Adjustment".

(** [anchorage_df[anchorage_df['Type'] == 'Balance Adjustment']]. *)
Definition balance_adjustments (anchorage_df : list AnchorageRow) : list AnchorageRow :=
  filter is_balance_adjustment anchorage_df.

(** A row of [grouped]: the two group keys and the two sums. *)
Record Group := mkGroup {
  g_Date : date; g_Destination_Address : string; g_Quantity : Z; g_Value : Z }.

Definition row_key (r : AnchorageRow) : key :=
  (dt_date (End_Time r), Destination_Address r).

Definition group_key (g : Group) : key := (g_Date g, g_Destination_Address g).

(** Adds one row to the group of its key, opening the group if needed. *)
Fixpoint agg_add (r : AnchorageRow) (gs : list Group) : list Group :=
  match gs with
  | [] => [mkGroup (dt_date (End_Time r)) (Destination_Address r)
                   (Asset_Quantity_Before_Fee r) (Value_USD r)]
  | g :: gs' =>
      if key_eqb (row_key r) (group_key g)
      then mkGroup (g_Date g) (g_Destination_Address g)
                   (g_Quantity g + Asset_Quantity_Before_Fee r)
                   (g_Value g + Value_USD r) :: gs'
      else g :: agg_add r gs'
  end.

(** [df.groupby(['Date', 'Destination Address']).agg({...: 'sum'}).reset_index()]:
    one row per key, keys ascending. *)
Definition groupby_sum (rows : list AnchorageRow) : list Group :=
  sort_by group_key (fold_left (fun gs r => agg_add r gs) rows []).

Definition addr_eqb (a b : option string) : bool :=
  match a, b with
  | Some x, Some y => x =? y
  | None, None => true
  | _, _ => false
  end.

(** [d[k] = v] on a Python dict kept in insertion order. *)
Fixpoint dict_set (k : option string) (v : string)
         (d : list (option string * string)) : list (option string * string) :=
  match d with
  | [] => [(k, v)]
  | (k', v') :: d' =>
      if addr_eqb k k' then (k', v) :: d' else (k', v') :: dict_set k v d'
  end.

(** [d.get(k)]. *)
Definition dict_get (k : option string) (d : list (option string * string))
  : option string :=
  match find (fun item => addr_eqb k (fst item)) d with
  | Some item => Some (snd item)
  | None => None
  end.

(** [dict(zip(wallets_df['Addresses'], wallets_df['Name']))]. *)
Definition wallets_lookup (wallets_df : list WalletRow) : list (option string * string) :=
  fold_left (fun d w => dict_set (Addresses w) (Name w) d) wallets_df [].

(** [grouped.loc[grouped['Destination Address'] == addr, 'Wallet Name'] = name]. *)
Definition set_wallet_name (addr name : string) (grouped : list (Group * string))
  : list (Group * string) :=
  map (fun gn => if g_Destination_Address (fst gn) =? addr then (fst gn, name) else gn)
      grouped.

(** The loop over [wallets_lookup.items()]; [pd.notna(addr)] skips [None]. *)
Definition replace_addresses (lookup : list (option string * string))
           (grouped : list (Group * string)) : list (Group * string) :=
  fold_left (fun gr item =>
               match fst item with
               | Some addr => set_wallet_name addr (snd item) gr
               | None => gr
               end) lookup grouped.

(** The 'Wallet Name' a row of address [addr] ends the loop with, when it
    entered it with [name]. *)
Definition name_after (lookup : list (option string * string)) (addr name : string)
  : string :=
  fold_left (fun nm item => if addr_eqb (fst item) (Some addr) then snd item else nm)
            lookup name.

(** [grouped] with its 'Wallet Name' column, after the replacement. *)
Definition named_groups (ba : list AnchorageRow) (wallets_df : list WalletRow)
  : list (Group * string) :=
  let grouped := map (fun g => (g, g_Destination_Address g)) (groupby_sum ba) in
  match wallets_df with
  | [] => grouped
  | _ :: _ => replace_addresses (wallets_lookup wallets_df) grouped
  end.

Definition stage1_row (gn : Group * string) : Stage1Row :=
  mkStage1Row (g_Date (fst gn)) (snd gn) (g_Quantity (fst gn)) (g_Value (fst gn)).

Definition stage1_key (r : Stage1Row) : key := (Date r, Wallet_Name r).

Definition process_stage_1 (anchorage_df : list AnchorageRow)
           (wallets_df : list WalletRow) : M (list Stage1Row) :=
  match balance_adjustments anchorage_df with
  | [] =>
      st_warning "No Balance Adjustment transactions found in the data." ;;;
      ret []
  | ba => ret (sort_by stage1_key (map stage1_row (named_groups ba wallets_df)))
  end.

(** What the specification says of a stage-1 row, for one (date, address)
    pair: the name of the last directory entry with that address (the
    address itself when there is none) and the sums over the matching rows. *)
Definition last_name_for (wallets_df : list WalletRow) (addr : string) : option string :=
  match filter (fun w => addr_eqb (Addresses w) (Some addr)) (List.rev wallets_df) with
  | [] => None
  | w :: _ => Some (Name w)
  end.

Definition rows_of_key (k : key) (rows : list AnchorageRow) : list AnchorageRow :=
  filter (fun r => key_eqb (row_key r) k) rows.

Definition stage1_spec_row (ba : list AnchorageRow) (wallets_df : list WalletRow)
           (k : key) : Stage1Row :=
  mkStage1Row (fst k)
    (match last_name_for wallets_df (snd k) with Some n => n | None => snd k end)
    (sum_Z (map Asset_Quantity_Before_Fee (rows_of_key k ba)))
    (sum_Z (map Value_USD (rows_of_key k ba))).

(** What holds of the groups built from the rows [seen] so far. *)
Definition groups_of (gs : list Group) (seen : list AnchorageRow) : Prop :=
  NoDup (map group_key gs)
  /\ (forall g, In g gs ->
        rows_of_key (group_key g) seen <> []
        /\ g_Quantity g = sum_Z (map Asset_Quantity_Before_Fee (rows_of_key (group_key g) seen))
        /\ g_Value g = sum_Z (map Value_USD (rows_of_key (group_key g) seen)))
  /\ (forall r, In r seen -> In (row_key r) (map group_key gs)).

(* ================================================================== *)
(** * Stages 2, 3 and 4 *)
(* ================================================================== *)

(** Truth value of an account id in [if account_id:]. *)
Definition truthy (s : string) : bool := negb (s =? "").

(** The name the withdrawal wallet is searched under. *)
Definition withdrawal_search_name (wallet_name : string) : string :=
  let search_name :=
    if startswith wallet_name "Aptos "
    then str_replace wallet_name "Aptos " ""
    else wallet_name in
  search_name ++ " vesting tokens".

Definition _get_withdrawal_account_id (wallet_name : string)
           (wallets_df : list WalletRow) : M (option string) :=
  let search_name := withdrawal_search_name wallet_name in
  match filter (fun w => Name w =? search_name) wallets_df with
  | [] =>
      st_error (wallet_name ++ " is missing a vesting tokens wallet") ;;;
      ret None
  | m :: _ => ret (Some (ID m))
  end.

Definition _get_deposit_account_id (wallet_name : string)
           (wallets_df : list WalletRow) (vesting_pairs_df : list VestingPair)
  : M (option string) :=
  match filter (fun p => Originating_Wallet p =? wallet_name) vesting_pairs_df with
  | [] =>
      st_error ("No Originating Wallet Match in the Vesting Wallet Pairs table for "
                ++ wallet_name) ;;;
      ret None
  | p :: _ =>
      let beneficiary_wallet := Beneficiary_Wallet p in
      match filter (fun w => Name w =? beneficiary_wallet) wallets_df with
      | [] =>
          st_error ("No Beneficiary Wallet Match in the Wallets list for "
                    ++ beneficiary_wallet) ;;;
          ret None
      | m :: _ => ret (Some (ID m))
      end
  end.

(** The row both halves of stage 2 build, up to id, type and account. *)
Definition vesting_row (the_id transaction_type account_id : string)
           (d : date) (amt cst : Z) : LedgerRow :=
  mkLedgerRow the_id "" amt "APT" (Some cst) "USD" "" "" (noon d)
              (account_id ++ ".vestingdistribute." ++ strftime_mdy d) ""
              transaction_type account_id "" "" "FALSE" ""
              "vesting distribution per Anchorage report" "" "" "".

(** [if account_id: output_rows.append(...)]: the row, unless the lookup
    failed or gave an empty id. *)
Definition entry_rows (account_id : option string) (the_id transaction_type : string)
           (d : date) (amt cst : Z) : list LedgerRow :=
  match account_id with
  | Some a => if truthy a then [vesting_row the_id transaction_type a d amt cst] else []
  | None => []
  end.

Definition _get_stage2_deposit_amount (stage2_df : list LedgerRow)
           (account_id : string) (d : date) : option Z :=
  let deposits :=
    filter (fun r => (transactionType r =? "deposit") && (accountId r =? account_id))
           stage2_df in
  match find (fun r => date_eqb (dt_date (time r)) d) deposits with
  | Some deposit_row => Some (amount deposit_row)
  | None => None
  end.

(** [st.session_state['stage3_matched_transactions'].append(m)], creating
    the list when the key is absent. *)
Definition append_match (m : MatchRecord) : M unit := fun w =>
  (tt, set_matched
         (Some match stage3_matched_transactions w with
               | None => [m]
               | Some l => (l ++ [m])%list
               end) w).

(** The date window of stage 3: strictly after [base_date], at most
    [base_date + timedelta(days=10)]. *)
Definition in_window (d : date) (t : BitwaveRow) : bool :=
  let base_date := timestamp_value (midnight d) in
  let end_date := plus_days base_date 10 in
  ((base_date <? timestamp_value (bw_dateTime t))
   && (timestamp_value (bw_dateTime t) <=? end_date))%Z.

Definition _calculate_bitwave_amount (bitwave_df : list BitwaveRow)
           (account_id : string) (d : date) (stage2_amt : Z) : M (option Z) :=
  match filter (fun t => bw_walletId t =? account_id) bitwave_df with
  | [] => ret None
  | wallet_transactions =>
      match filter (in_window d) wallet_transactions with
      | [] => ret None
      | date_filtered =>
          match filter (fun t => (stage2_amt <? bw_amount t)%Z) date_filtered with
          | [] => ret None
          | first :: _ =>
              let bitwave_amt := bw_amount first in
              let calculated := (bitwave_amt - stage2_amt)%Z in
              append_match (mkMatchRecord (bw_id first) bitwave_amt stage2_amt calculated) ;;;
              ret (Some calculated)
          end
      end
  end.

Definition _get_wallet_name_from_id (account_id : string)
           (wallets_df : list WalletRow) : string :=
  match filter (fun w => ID w =? account_id) wallets_df with
  | m :: _ => Name m
  | [] => "Unknown Wallet (" ++ account_id ++ ")"
  end.

Definition reward_row (the_id account_id : string) (d : date) (amt : Z) : LedgerRow :=
  mkLedgerRow the_id "" amt "APT" None "" "" "" (noon d)
              (account_id ++ ".vestingstakingrewards." ++ strftime_mdy d) ""
              "deposit" account_id "nFc4OUI5w6wSa6zFKQVj.526"
              "nFc4OUI5w6wSa6zFKQVj.265" "FALSE" ""
              "staking reward from vesting distribution per Anchorage report"
              "" "" "".

(** [{'transactionID': transaction['id'], 'action': 'ignore'}]. *)
Definition ignore_row (m : MatchRecord) : IgnoreRow := mkIgnoreRow (m_id m) "ignore".

Definition process_stage_4 : M (list IgnoreRow) := fun w =>
  match stage3_matched_transactions w with
  | None =>
      (st_warning "No Stage 3 transactions found. Please run Stage 3 first." ;;;
       ret []) w
  | Some matched => (map ignore_row matched, w)
  end.

Section Stages.
Variable now : nat -> datetime.
Variable disk_ok : nat -> bool.

(** The body of the loop of [process_stage_2] for one stage-1 row. *)
Definition stage2_body (wallets_df : list WalletRow)
           (vesting_pairs_df : list VestingPair) (row : Stage1Row)
  : M (list LedgerRow) :=
  let d := Date row in
  let wallet_name := Wallet_Name row in
  let amt := Sum_Quantity row in
  let cst := Sum_Value row in
  withdrawal_id <- next_id now disk_ok ;;
  deposit_id <- next_id now disk_ok ;;
  withdrawal_account_id <- _get_withdrawal_account_id wallet_name wallets_df ;;
  let withdrawal_rows :=
    entry_rows withdrawal_account_id withdrawal_id "withdrawal" d amt cst in
  deposit_account_id <- _get_deposit_account_id wallet_name wallets_df vesting_pairs_df ;;
  let deposit_rows :=
    entry_rows deposit_account_id deposit_id "deposit" d amt cst in
  ret (withdrawal_rows ++ deposit_rows)%list.

Definition process_stage_2 (stage1_df : list Stage1Row)
           (wallets_df : list WalletRow) (vesting_pairs_df : list VestingPair)
  : M (list LedgerRow) :=
  match stage1_df with
  | [] =>
      st_error "No Stage 1 data available for Stage 2 processing" ;;;
      ret []
  | _ :: _ => for_each (stage2_body wallets_df vesting_pairs_df) stage1_df
  end.

(** The body of the loop of [process_stage_3] for one stage-1 row: the
    ledger row and the display row, or nothing when the row is skipped. *)
Definition stage3_body (stage2_df : list LedgerRow) (bitwave_df : list BitwaveRow)
           (wallets_df : list WalletRow) (vesting_pairs_df : list VestingPair)
           (row : Stage1Row) : M (list (LedgerRow * DisplayRow)) :=
  let d := Date row in
  let wallet_name := Wallet_Name row in
  account_id <- _get_deposit_account_id wallet_name wallets_df vesting_pairs_df ;;
  match account_id with
  | None => ret []
  | Some account_id =>
      if negb (truthy account_id) then ret [] else
      match _get_stage2_deposit_amount stage2_df account_id d with
      | None => ret []
      | Some stage2_deposit_amount =>
          calculated <- _calculate_bitwave_amount bitwave_df account_id d
                                                  stage2_deposit_amount ;;
          match calculated with
          | None => ret []
          | Some calculated_amt =>
              if (calculated_amt <=? 0)%Z then ret [] else
              unique_id <- next_id now disk_ok ;;
              ret [(reward_row unique_id account_id d calculated_amt,
                    mkDisplayRow d (_get_wallet_name_from_id account_id wallets_df)
                                 calculated_amt)]
          end
      end
  end.

Definition process_stage_3 (stage1_df : list Stage1Row) (stage2_df : list LedgerRow)
           (bitwave_df : list BitwaveRow) (wallets_df : list WalletRow)
           (vesting_pairs_df : list VestingPair)
  : M (list LedgerRow * list DisplayRow) :=
  match stage1_df with
  | [] =>
      st_error "No Stage 1 data available for Stage 3 processing" ;;;
      ret ([], [])
  | _ :: _ =>
      rows <- for_each (stage3_body stage2_df bitwave_df wallets_df vesting_pairs_df)
                       stage1_df ;;
      ret (map fst rows, map snd rows)
  end.

End Stages.

(* ================================================================== *)
(** * What the loops compute, without the world *)
(* ================================================================== *)

(** The results of the account lookups do not depend on the world. *)
Definition first_id_named (name : string) (wallets_df : list WalletRow) : option string :=
  match filter (fun w => Name w =? name) wallets_df with
  | [] => None
  | m :: _ => Some (ID m)
  end.

Definition withdrawal_account (wallet_name : string) (wallets_df : list WalletRow)
  : option string :=
  first_id_named (withdrawal_search_name wallet_name) wallets_df.

Definition deposit_account (wallet_name : string) (wallets_df : list WalletRow)
           (vesting_pairs_df : list VestingPair) : option string :=
  match filter (fun p => Originating_Wallet p =? wallet_name) vesting_pairs_df with
  | [] => None
  | p :: _ => first_id_named (Beneficiary_Wallet p) wallets_df
  end.

(** Whether a half of a stage-2 row is skipped. *)
Definition skipped (account_id : option string) : bool :=
  match account_id with Some a => negb (truthy a) | None => true end.

(** The rows stage 2 emits for one stage-1 row, given its two ids. *)
Definition stage2_rows (wallets_df : list WalletRow) (vesting_pairs_df : list VestingPair)
           (row : Stage1Row) (withdrawal_id deposit_id : string) : list LedgerRow :=
  (entry_rows (withdrawal_account (Wallet_Name row) wallets_df)
              withdrawal_id "withdrawal" (Date row) (Sum_Quantity row) (Sum_Value row)
   ++ entry_rows (deposit_account (Wallet_Name row) wallets_df vesting_pairs_df)
                 deposit_id "deposit" (Date row) (Sum_Quantity row) (Sum_Value row))%list.

(** The output of the loop of stage 2 when the next clock reading has
    index [k] and the counter stands at [c]. *)
Fixpoint stage2_output (now : nat -> datetime) (wallets_df : list WalletRow)
         (vesting_pairs_df : list VestingPair) (k : nat) (c : Z)
         (rows : list Stage1Row) : list LedgerRow :=
  match rows with
  | [] => []
  | row :: rest =>
      (stage2_rows wallets_df vesting_pairs_df row
                   (unique_id (strftime_YmdHMS (now k)) c)
                   (unique_id (strftime_YmdHMS (now (S k))) (c + 1)%Z)
       ++ stage2_output now wallets_df vesting_pairs_df (S (S k)) (c + 2)%Z rest)%list
  end.

(** What the claims say of the entries [part] emitted for one stage-1 row. *)
Definition stage2_part_ok (row : Stage1Row) (part : list LedgerRow) : Prop :=
  List.length part <= 2
  /\ List.length (filter (fun e => transactionType e =? "withdrawal") part) <= 1
  /\ List.length (filter (fun e => transactionType e =? "deposit") part) <= 1
  /\ forall e, In e part ->
       amount e = Sum_Quantity row /\ cost e = Some (Sum_Value row)
       /\ time e = noon (Date row)
       /\ (transactionType e = "withdrawal" \/ transactionType e = "deposit").

(** Only the messages differ between two worlds. *)
Definition same_but_messages (w w' : World) : Prop :=
  id_counter w' = id_counter w /\ counter_file w' = counter_file w
  /\ issued w' = issued w
  /\ stage3_matched_transactions w' = stage3_matched_transactions w.

(** The first reward-source transaction of the account, in the order of the
    table, that lies in the window and exceeds the expected amount. *)
Definition reward_candidate (account_id : string) (d : date) (expected : Z)
           (t : BitwaveRow) : bool :=
  (bw_walletId t =? account_id) && in_window d t && (expected <? bw_amount t)%Z.

Definition reward_match (bitwave_df : list BitwaveRow) (account_id : string)
           (d : date) (expected : Z) : option BitwaveRow :=
  find (reward_candidate account_id d expected) bitwave_df.

(** What stage 3 finds for one stage-1 row: the account, the expected
    amount and the matched transaction, when no step skips the row. *)
Definition stage3_row_hit (stage2_df : list LedgerRow) (bitwave_df : list BitwaveRow)
           (wallets_df : list WalletRow) (vesting_pairs_df : list VestingPair)
           (row : Stage1Row) : option (string * Z * BitwaveRow) :=
  match deposit_account (Wallet_Name row) wallets_df vesting_pairs_df with
  | None => None
  | Some account_id =>
      if negb (truthy account_id) then None else
      match _get_stage2_deposit_amount stage2_df account_id (Date row) with
      | None => None
      | Some expected =>
          match reward_match bitwave_df account_id (Date row) expected with
          | None => None
          | Some t => Some (account_id, expected, t)
          end
      end
  end.

(** The match record one stage-1 row adds in stage 3, if any. *)
Definition stage3_row_matches (stage2_df : list LedgerRow) (bitwave_df : list BitwaveRow)
           (wallets_df : list WalletRow) (vesting_pairs_df : list VestingPair)
           (row : Stage1Row) : list MatchRecord :=
  match stage3_row_hit stage2_df bitwave_df wallets_df vesting_pairs_df row with
  | None => []
  | Some (_, expected, t) =>
      [mkMatchRecord (bw_id t) (bw_amount t) expected (bw_amount t - expected)%Z]
  end.

(** The match records one run of stage 3 produces. *)
Definition stage3_matches (stage1_df : list Stage1Row) (stage2_df : list LedgerRow)
           (bitwave_df : list BitwaveRow) (wallets_df : list WalletRow)
           (vesting_pairs_df : list VestingPair) : list MatchRecord :=
  flat_map (stage3_row_matches stage2_df bitwave_df wallets_df vesting_pairs_df) stage1_df.

(** The records of the accumulator; an absent key holds none. *)
Definition records (acc : option (list MatchRecord)) : list MatchRecord :=
  match acc with Some l => l | None => [] end.

(** The accumulator after appending [l], one record at a time. *)
Definition append_all (l : list MatchRecord) (acc : option (list MatchRecord))
  : option (list MatchRecord) :=
  match l with
  | [] => acc
  | _ :: _ => Some (records acc ++ l)%list
  end.

(* ================================================================== *)
(** * [FileProcessor]: validation of the uploaded tables, date filter *)
(* ================================================================== *)

(** [[col for col in required_columns if col not in df.columns]]. *)
Definition missing_columns (required_columns columns : list string) : list string :=
  filter (fun col => negb (existsb (String.eqb col) columns)) required_columns.

Definition anchorage_required_columns : list string :=
  ["End Time"; "Type"; "Asset Type"; "Asset Quantity (Before Fee)";
   "Value (USD)"; "Fee Quantity"; "Fee Value (USD)"; "Fee Asset Type";
   "Source Addresses"; "Destination Address"].

Definition wallets_required_columns : list string := ["ID"; "Name"; "Addresses"].

Definition vesting_pairs_required_columns : list string :=
  ["Beneficiary Wallet"; "Originating Wallet"].

Definition bitwave_required_columns : list string :=
  ["id"; "dateTime"; "walletId"; "amount"].

(** The validators read [df.columns] only. *)
Definition validate_anchorage_file (columns : list string) : M bool :=
  let missing := missing_columns anchorage_required_columns columns in
  match missing with
  | [] => ret true
  | _ :: _ =>
      st_error ("Missing required columns: " ++ String.concat ", " missing) ;;;
      ret false
  end.

Definition validate_wallets_list (columns : list string) : M bool :=
  let missing := missing_columns wallets_required_columns columns in
  match missing with
  | [] => ret true
  | _ :: _ =>
      st_error ("Missing required columns in Wallets List: "
                ++ String.concat ", " missing) ;;;
      ret false
  end.

Definition validate_vesting_pairs (columns : list string) : M bool :=
  let missing := missing_columns vesting_pairs_required_columns columns in
  match missing with
  | [] => ret true
  | _ :: _ =>
      st_error ("Missing required columns in Vesting Wallet Pairs: "
                ++ String.concat ", " missing) ;;;
      ret false
  end.

Definition validate_bitwave_file (columns : list string) : M bool :=
  let missing := missing_columns bitwave_required_columns columns in
  match missing with
  | [] => ret true
  | _ :: _ =>
      st_error ("Missing required columns in Bitwave Export: "
                ++ String.concat ", " missing) ;;;
      ret false
  end.

(** [filter_date_range(df, date_column, start_date, end_date)] on a table
    whose date column holds timestamps: both ends belong to the range. *)
Definition in_date_range (start_date end_date t : datetime) : bool :=
  ((timestamp_value start_date <=? timestamp_value t)
   && (timestamp_value t <=? timestamp_value end_date))%Z.

Definition filter_date_range {A : Type} (df : list A) (date_column : A -> datetime)
           (start_date end_date : datetime) : list A :=
  filter (fun r => in_date_range start_date end_date (date_column r)) df.

(** What a validator with the required columns [required] and the message
    heading [heading] does: it accepts exactly the tables that have every
    required column and then says nothing; otherwise it rejects with one
    error that lists the missing required columns, in the order of
    [required]. *)
Definition validator_spec (validate : list string -> M bool)
           (required : list string) (heading : string) : Prop :=
  forall (columns : list string) (w : World),
    (fst (validate columns w) = true <-> incl required columns)
    /\ (incl required columns -> validate columns w = (true, w))
    /\ (~ incl required columns ->
        missing_columns required columns <> []
        /\ validate columns w
           = (false,
              mkWorld (id_counter w) (counter_file w) (issued w)
                      (stage3_matched_transactions w)
                      (messages w
                       ++ [Error (heading
                                  ++ String.concat ", "
                                       (missing_columns required columns))])))
    /\ (forall c, In c (missing_columns required columns)
                  <-> In c required /\ ~ In c columns).

(* ================================================================== *)
(** * Views used to state what the stages do *)
(* ================================================================== *)

(** The part of a timestamp after midnight, in nanoseconds. *)
Definition time_of_day (t : datetime) : Z :=
  (((Z.of_nat (hour t) * 60 + Z.of_nat (minute t)) * 60 + Z.of_nat (second t))
   * ns_per_second + Z.of_nat (nanosecond t))%Z.

(** The months and days Python's [date] allows. *)
Definition valid_date (d : date) : Prop := 1 <= month d <= 12 /\ 1 <= day d <= 31.

(** The times of day Python's [datetime] allows. *)
Definition valid_time (t : datetime) : Prop :=
  hour t < 24 /\ minute t < 60 /\ second t < 60
  /\ (Z.of_nat (nanosecond t) < ns_per_second)%Z.

(** A new session of the application: [st.session_state] is empty again,
    the counter file stays on disk and the clock goes on. *)
Definition new_session (w : World) : World :=
  mkWorld None (counter_file w) (issued w) None [].

(** The [i]-th id issued from the world [w] on. *)
Definition nth_id (now : nat -> datetime) (w : World) (i : nat) : string :=
  unique_id (strftime_YmdHMS (now (issued w + i))) (loaded_counter w + Z.of_nat i)%Z.

(** The errors the two lookups of stage 2 report for one stage-1 row. *)
Definition withdrawal_messages (wallet_name : string) (wallets_df : list WalletRow)
  : list Message :=
  match withdrawal_account wallet_name wallets_df with
  | None => [Error (wallet_name ++ " is missing a vesting tokens wallet")]
  | Some _ => []
  end.

Definition deposit_messages (wallet_name : string) (wallets_df : list WalletRow)
           (vesting_pairs_df : list VestingPair) : list Message :=
  match filter (fun p => Originating_Wallet p =? wallet_name) vesting_pairs_df with
  | [] =>
      [Error ("No Originating Wallet Match in the Vesting Wallet Pairs table for "
              ++ wallet_name)]
  | p :: _ =>
      match first_id_named (Beneficiary_Wallet p) wallets_df with
      | None =>
          [Error ("No Beneficiary Wallet Match in the Wallets list for "
                  ++ Beneficiary_Wallet p)]
      | Some _ => []
      end
  end.

Definition stage2_messages (wallets_df : list WalletRow)
           (vesting_pairs_df : list VestingPair) (rows : list Stage1Row)
  : list Message :=
  flat_map (fun row =>
              (withdrawal_messages (Wallet_Name row) wallets_df
               ++ deposit_messages (Wallet_Name row) wallets_df vesting_pairs_df)%list)
           rows.

(** The stage-1 rows stage 3 finds a reward for, with what it found. *)
Definition stage3_hits (stage1_df : list Stage1Row) (stage2_df : list LedgerRow)
           (bitwave_df : list BitwaveRow) (wallets_df : list WalletRow)
           (vesting_pairs_df : list VestingPair)
  : list (Stage1Row * (string * Z * BitwaveRow)) :=
  flat_map (fun row =>
              match stage3_row_hit stage2_df bitwave_df wallets_df vesting_pairs_df row with
              | Some h => [(row, h)]
              | None => []
              end) stage1_df.

(** The rows stage 3 emits for these, when the next clock reading has
    index [k] and the counter stands at [c]. *)
Fixpoint stage3_rows (now : nat -> datetime) (wallets_df : list WalletRow)
         (k : nat) (c : Z) (hits : list (Stage1Row * (string * Z * BitwaveRow)))
  : list (LedgerRow * DisplayRow) :=
  match hits with
  | [] => []
  | (row, (account_id, expected, t)) :: rest =>
      (reward_row (unique_id (strftime_YmdHMS (now k)) c) account_id (Date row)
                  (bw_amount t - expected)%Z,
       mkDisplayRow (Date row) (_get_wallet_name_from_id account_id wallets_df)
                    (bw_amount t - expected)%Z)
      :: stage3_rows now wallets_df (S k) (c + 1)%Z rest
  end.

(* ================================================================== *)
(** * A small session, used to run the stages *)
(* ================================================================== *)

Module Sample.

(** A fresh session: no counter, no counter file, nothing matched. *)
Definition fresh : World := mkWorld None None 0 None [].

(** A session whose counter file holds 7. *)
Definition stored7 : World := mkWorld None (Some 7%Z) 0 None [].

(** The clock: 9 January 2024, 10:30, one second per reading. *)
Definition clock (i : nat) : datetime := mkdatetime (mkdate 2024 1 9) 10 30 (i mod 60) 0.

Definition disk_up (i : nat) : bool := true.

Definition jan5 : date := mkdate 2024 1 5.

Definition wallets : list WalletRow :=
  [mkWalletRow "W1" "TeamA vesting tokens" None;
   mkWalletRow "W2" "TeamA Beneficiary" None;
   mkWalletRow "W0" "Old TeamA" (Some "0xABC");
   mkWalletRow "W3" "Aptos TeamA" (Some "0xABC")].

Definition pairs : list VestingPair :=
  [mkVestingPair "TeamA Beneficiary" "Aptos TeamA"].

Definition anchorage : list AnchorageRow :=
  [mkAnchorageRow (mkdatetime jan5 3 4 5 0) "Balance Adjustment" 60 300 "0xABC";
   mkAnchorageRow (mkdatetime jan5 4 0 0 0) "balance adjustment" 1 1 "0xABC";
   mkAnchorageRow (mkdatetime jan5 9 0 0 0) "Balance Adjustment" 40 200 "0xABC"].


Definition stage1 : list Stage1Row := [mkStage1Row jan5 "Aptos TeamA" 100 500].

Definition stage2 : list LedgerRow :=
  fst (process_stage_2 clock disk_up stage1 wallets pairs fresh).

Definition bitwave : list BitwaveRow :=
  [mkBitwaveRow "tx0" (mkdatetime (mkdate 2024 1 6) 8 0 0 0) "W2" 90;
   mkBitwaveRow "tx1" (mkdatetime (mkdate 2024 1 8) 1 0 0 0) "W2" 112;
   mkBitwaveRow "tx2" (mkdatetime (mkdate 2024 1 9) 1 0 0 0) "W2" 150].

(** A wallet whose name holds "Aptos " twice, and its vesting wallet. *)
Definition twice_named : string := "Aptos Team Aptos Core".

Definition twice_wallets : list WalletRow :=
  [mkWalletRow "W9" "Team Aptos Core vesting tokens" None].

(** A Balance Adjustment row sent to an address the directory lacks. *)
Definition stray : AnchorageRow :=
  mkAnchorageRow (mkdatetime jan5 7 0 0 0) "Balance Adjustment" 7 8 "0xZZZ".

(** The reward row and the display row stage 3 emits for the sample row. *)
Definition reward : LedgerRow * DisplayRow :=
  hd (reward_row "" "" jan5 0, mkDisplayRow jan5 "" 0)
     (fst (stage3_body clock disk_up stage2 bitwave wallets pairs
                       (mkStage1Row jan5 "Aptos TeamA" 100 500) fresh)).

End Sample.

(* ================================================================== *)
(** * Orders and sorting *)
(* ================================================================== *)

Lemma lex_eq c1 c2 : lex c1 c2 = Eq -> c1 = Eq /\ c2 = Eq.
Proof. destruct c1; simpl; intros H; try discriminate; auto. Qed.

Lemma lex_lt c1 c2 : lex c1 c2 = Lt <-> c1 = Lt \/ (c1 = Eq /\ c2 = Lt).
Proof.
  destruct c1; simpl; split; intros H; try discriminate; auto;
    destruct H as [H | [H H']]; try discriminate; auto.
Qed.

#[export] Instance nat_ordered : OrderedCompare Nat.compare.
Proof.
  split.
  - intros x y. apply Nat.compare_antisym.
  - intros x y. apply Nat.compare_eq.
  - intros x y z H1 H2.
    apply Nat.compare_lt_iff in H1, H2. apply Nat.compare_lt_iff. lia.
Qed.

Lemma ascii_compare_refl c : Ascii.compare c c = Eq.
Proof. unfold Ascii.compare. apply N.compare_refl. Qed.

Lemma string_compare_refl s : String.compare s s = Eq.
Proof.
  induction s as [|c s IH]; simpl; [reflexivity|].
  now rewrite ascii_compare_refl.
Qed.

Lemma string_compare_trans x : forall y z,
  String.compare x y = Lt -> String.compare y z = Lt -> String.compare x z = Lt.
Proof.
  induction x as [|a x IH]; intros [|b y] [|c z]; simpl; try discriminate; auto.
  destruct (Ascii.compare a b) eqn:Hab; try discriminate.
  - apply Ascii.compare_eq_iff in Hab. subst b.
    destruct (Ascii.compare a c); try discriminate; auto.
    apply IH.
  - intros _. destruct (Ascii.compare b c) eqn:Hbc; try discriminate.
    + apply Ascii.compare_eq_iff in Hbc. subst c. now rewrite Hab.
    + intros _. unfold Ascii.compare in *.
      rewrite N.compare_lt_iff in Hab, Hbc.
      assert (H : (N_of_ascii a < N_of_ascii c)%N) by lia.
      rewrite <- N.compare_lt_iff in H. now rewrite H.
Qed.

#[export] Instance string_ordered : OrderedCompare String.compare.
Proof.
  split.
  - apply String.compare_antisym.
  - apply String.compare_eq_iff.
  - apply string_compare_trans.
Qed.

Lemma cmp_refl {A} (cmp : A -> A -> comparison) `{OrderedCompare A cmp} x :
  cmp x x = Eq.
Proof.
  pose proof (cmp_antisym x x) as E.
  destruct (cmp x x); simpl in E; try discriminate; reflexivity.
Qed.

(** The lexicographic product of two total orders is a total order. *)
Lemma lex_ordered {A B C} (ca : A -> A -> comparison) (cb : B -> B -> comparison)
      (Ha : OrderedCompare ca) (Hb : OrderedCompare cb)
      (pa : C -> A) (pb : C -> B)
      (inj : forall x y, pa x = pa y -> pb x = pb y -> x = y) :
  OrderedCompare (fun x y => lex (ca (pa x) (pa y)) (cb (pb x) (pb y))).
Proof.
  split.
  - intros x y. rewrite (cmp_antisym (cmp := ca) (pa x) (pa y)).
    rewrite (cmp_antisym (cmp := cb) (pb x) (pb y)).
    destruct (ca (pa y) (pa x)); reflexivity.
  - intros x y E. apply lex_eq in E. destruct E as [E1 E2].
    apply inj; [now apply (cmp_eq (cmp := ca)) | now apply (cmp_eq (cmp := cb))].
  - intros x y z H1 H2. apply lex_lt in H1, H2. apply lex_lt.
    destruct H1 as [H1 | [H1 H1']], H2 as [H2 | [H2 H2']].
    + left. eapply cmp_trans; eauto.
    + left. apply (cmp_eq (cmp := ca)) in H2. now rewrite <- H2.
    + left. apply (cmp_eq (cmp := ca)) in H1. now rewrite H1.
    + right. apply (cmp_eq (cmp := ca)) in H1, H2. split.
      * rewrite H1, H2. apply cmp_refl; assumption.
      * eapply cmp_trans; eauto.
Qed.

#[export] Instance date_ordered : OrderedCompare date_compare.
Proof.
  unfold date_compare.
  apply (lex_ordered Nat.compare
           (fun p q : nat * nat => lex (fst p ?= fst q)%nat (snd p ?= snd q)%nat)
           nat_ordered
           (lex_ordered Nat.compare Nat.compare nat_ordered nat_ordered fst snd
              (fun p q => match p, q with
                          | (a, b), (c, d) => fun E1 E2 => f_equal2 pair E1 E2
                          end))
           year (fun d => (month d, day d))).
  intros [y1 m1 d1] [y2 m2 d2]; simpl; congruence.
Qed.

#[export] Instance key_ordered : OrderedCompare key_compare.
Proof.
  unfold key_compare.
  apply (lex_ordered date_compare String.compare date_ordered string_ordered fst snd).
  intros [a b] [c d]; simpl; congruence.
Qed.



Lemma date_eqb_eq a b : date_eqb a b = true <-> a = b.
Proof.
  unfold date_eqb. destruct a as [y1 m1 d1], b as [y2 m2 d2]; simpl.
  rewrite !andb_true_iff, !Nat.eqb_eq. split.
  - intros [[-> ->] ->]. reflexivity.
  - intros E. injection E as -> -> ->. auto.
Qed.

Lemma key_eqb_eq a b : key_eqb a b = true <-> a = b.
Proof.
  unfold key_eqb. destruct a as [d1 s1], b as [d2 s2]; simpl.
  rewrite andb_true_iff, date_eqb_eq, String.eqb_eq. split.
  - intros [-> ->]. reflexivity.
  - intros E. injection E as -> ->. auto.
Qed.

Lemma key_eqb_refl a : key_eqb a a = true.
Proof. now apply key_eqb_eq. Qed.

Lemma key_eqb_neq a b : key_eqb a b = false <-> a <> b.
Proof.
  split.
  - intros E <-. rewrite key_eqb_refl in E. discriminate.
  - intros N. destruct (key_eqb a b) eqn:E; [|reflexivity].
    apply key_eqb_eq in E. contradiction.
Qed.

Section SortingFacts.
Context {A : Type} (keyof : A -> key).

Lemma insert_by_perm x l : Permutation (insert_by keyof x l) (x :: l).
Proof.
  induction l as [|y l IH]; simpl; [reflexivity|].
  destruct (key_leb (keyof x) (keyof y)); [reflexivity|].
  rewrite IH. apply perm_swap.
Qed.

Lemma sort_by_perm l : Permutation (sort_by keyof l) l.
Proof.
  induction l as [|x l IH]; simpl; [reflexivity|].
  rewrite insert_by_perm. now constructor.
Qed.




Lemma sort_by_in x l : In x (sort_by keyof l) <-> In x l.
Proof.
  split; apply Permutation_in; [|symmetry]; apply sort_by_perm.
Qed.
End SortingFacts.

(* ================================================================== *)
(** * Stage 1: grouping *)
(* ================================================================== *)

Lemma sum_Z_app l1 l2 : sum_Z (l1 ++ l2) = (sum_Z l1 + sum_Z l2)%Z.
Proof. induction l1 as [|x l1 IH]; simpl; [reflexivity | rewrite IH; lia]. Qed.

Lemma rows_of_key_snoc k seen r :
  rows_of_key k (seen ++ [r])
  = (rows_of_key k seen ++ if key_eqb (row_key r) k then [r] else [])%list.
Proof. unfold rows_of_key. rewrite filter_app. reflexivity. Qed.

Lemma rows_of_key_nil k rows :
  rows_of_key k rows = [] <-> forall r, In r rows -> row_key r <> k.
Proof.
  unfold rows_of_key. split.
  - intros E r Hr Hk.
    assert (H : In r (filter (fun r => key_eqb (row_key r) k) rows)).
    { apply filter_In. split; [exact Hr | now apply key_eqb_eq]. }
    rewrite E in H. exact H.
  - intros H. induction rows as [|x rows IH]; simpl; [reflexivity|].
    destruct (key_eqb (row_key x) k) eqn:E.
    + apply key_eqb_eq in E. exfalso. apply (H x); [now left | exact E].
    + apply IH. intros r Hr. apply H. now right.
Qed.

Lemma agg_add_keys r gs k :
  In k (map group_key (agg_add r gs)) <-> k = row_key r \/ In k (map group_key gs).
Proof.
  induction gs as [|g gs IH]; simpl.
  - unfold row_key. intuition.
  - destruct (key_eqb (row_key r) (group_key g)) eqn:E; simpl.
    + apply key_eqb_eq in E. unfold group_key at 1; simpl.
      fold (group_key g). rewrite <- E. intuition.
    + rewrite IH. intuition.
Qed.

Lemma agg_add_nodup r gs :
  NoDup (map group_key gs) -> NoDup (map group_key (agg_add r gs)).
Proof.
  induction gs as [|g gs IH]; simpl; intros N.
  - repeat constructor. intros [].
  - inversion N as [|? ? Hnin N']; subst.
    destruct (key_eqb (row_key r) (group_key g)) eqn:E; simpl.
    + unfold group_key at 1; simpl. fold (group_key g). now constructor.
    + constructor; [|now apply IH].
      rewrite agg_add_keys. intros [H | H]; [|contradiction].
      apply key_eqb_neq in E. congruence.
Qed.

(** Where a group of [agg_add r gs] comes from. *)
Lemma agg_add_in r gs g :
  NoDup (map group_key gs) -> In g (agg_add r gs) ->
  (In g gs /\ group_key g <> row_key r)
  \/ (group_key g = row_key r
      /\ exists q v,
          g_Quantity g = (q + Asset_Quantity_Before_Fee r)%Z
          /\ g_Value g = (v + Value_USD r)%Z
          /\ ((exists g0, In g0 gs /\ group_key g0 = row_key r
                          /\ g_Quantity g0 = q /\ g_Value g0 = v)
              \/ (~ In (row_key r) (map group_key gs) /\ q = 0%Z /\ v = 0%Z))).
Proof.
  induction gs as [|g1 gs IH]; simpl; intros N Hin.
  - destruct Hin as [<- | []]. right. split; [reflexivity|].
    exists 0%Z, 0%Z. simpl. repeat split; auto.
  - inversion N as [|? ? Hnin N']; subst.
    destruct (key_eqb (row_key r) (group_key g1)) eqn:E.
    + apply key_eqb_eq in E. destruct Hin as [<- | Hin].
      * right. split; [unfold group_key; simpl; now rewrite E|].
        exists (g_Quantity g1), (g_Value g1). simpl. repeat split.
        left. exists g1. auto.
      * left. split; [now right|].
        intros Hk. apply Hnin. rewrite <- E, <- Hk. now apply in_map.
    + apply key_eqb_neq in E. destruct Hin as [<- | Hin].
      * left. split; [now left | congruence].
      * destruct (IH N' Hin) as [[H1 H2] | [H1 (q & v & Hq & Hv & H3)]].
        -- left. split; [now right | exact H2].
        -- right. split; [exact H1|]. exists q, v. repeat split; auto.
           destruct H3 as [(g0 & Hg0 & H3) | (Hn & -> & ->)].
           ++ left. exists g0. split; [now right | exact H3].
           ++ right. repeat split; auto. intros [H | H]; [congruence | contradiction].
Qed.

Lemma groups_of_step gs seen r :
  groups_of gs seen -> groups_of (agg_add r gs) (seen ++ [r]).
Proof.
  intros (N & Hg & Hr). split; [now apply agg_add_nodup|]. split.
  - intros g Hin. rewrite rows_of_key_snoc.
    destruct (agg_add_in r gs g N Hin) as [[H1 H2] | [H1 (q & v & Hq & Hv & H3)]].
    + assert (E : key_eqb (row_key r) (group_key g) = false)
        by (apply key_eqb_neq; congruence).
      rewrite E, app_nil_r. now apply Hg.
    + rewrite H1, key_eqb_refl, !map_app, !sum_Z_app. simpl.
      split; [intros E; apply app_eq_nil in E; destruct E; discriminate|].
      rewrite Hq, Hv.
      destruct H3 as [(g0 & Hg0 & Hk & <- & <-) | (Hn & -> & ->)].
      * destruct (Hg g0 Hg0) as (_ & -> & ->). rewrite Hk. split; lia.
      * assert (E : rows_of_key (row_key r) seen = []).
        { apply rows_of_key_nil. intros r' Hr' Hk. apply Hn.
          rewrite <- Hk. now apply Hr. }
        rewrite E. simpl. split; lia.
  - intros r' Hin. apply agg_add_keys. apply in_app_or in Hin.
    destruct Hin as [Hin | [<- | []]]; [right; now apply Hr | now left].
Qed.

Lemma groups_of_fold rows : forall gs seen,
  groups_of gs seen ->
  groups_of (fold_left (fun gs r => agg_add r gs) rows gs) (seen ++ rows).
Proof.
  induction rows as [|r rows IH]; simpl; intros gs seen H.
  - now rewrite app_nil_r.
  - replace (seen ++ r :: rows)%list with ((seen ++ [r]) ++ rows)%list
      by (rewrite <- app_assoc; reflexivity).
    apply IH. now apply groups_of_step.
Qed.

Lemma groups_of_groupby_sum rows : groups_of (groupby_sum rows) rows.
Proof.
  assert (H : groups_of (fold_left (fun gs r => agg_add r gs) rows []) ([] ++ rows)).
  { apply groups_of_fold. split; [constructor|]. split; intros ? []. }
  simpl in H. destruct H as (N & Hg & Hr). unfold groupby_sum.
  pose proof (sort_by_perm group_key (fold_left (fun gs r => agg_add r gs) rows [])) as P.
  split; [|split].
  - eapply Permutation_NoDup; [|exact N]. symmetry. now apply Permutation_map.
  - intros g Hin. apply Hg. now apply (sort_by_in group_key).
  - intros r Hin. eapply Permutation_in; [|now apply Hr].
    symmetry. now apply Permutation_map.
Qed.

(* ================================================================== *)
(** * Stage 1: the address-to-name dictionary *)
(* ================================================================== *)

Lemma addr_eqb_eq a b : addr_eqb a b = true <-> a = b.
Proof.
  destruct a as [x|], b as [y|]; simpl; try (split; congruence).
  rewrite String.eqb_eq. split; congruence.
Qed.

Lemma addr_eqb_refl a : addr_eqb a a = true.
Proof. now apply addr_eqb_eq. Qed.

Lemma addr_eqb_sym a b : addr_eqb a b = addr_eqb b a.
Proof.
  destruct (addr_eqb a b) eqn:E1, (addr_eqb b a) eqn:E2; try reflexivity.
  - apply addr_eqb_eq in E1. subst. now rewrite addr_eqb_refl in E2.
  - apply addr_eqb_eq in E2. subst. now rewrite addr_eqb_refl in E1.
Qed.

Lemma dict_get_set k' k v d :
  dict_get k' (dict_set k v d) = if addr_eqb k' k then Some v else dict_get k' d.
Proof.
  unfold dict_get. induction d as [|[k1 v1] d IH]; simpl.
  - destruct (addr_eqb k' k); reflexivity.
  - destruct (addr_eqb k k1) eqn:E; simpl.
    + apply addr_eqb_eq in E. subst k1.
      destruct (addr_eqb k' k); reflexivity.
    + destruct (addr_eqb k' k1) eqn:E1; simpl.
      * destruct (addr_eqb k' k) eqn:E2; [|reflexivity].
        apply addr_eqb_eq in E1, E2. subst. now rewrite addr_eqb_refl in E.
      * exact IH.
Qed.

Lemma dict_set_keys k v d k' :
  In k' (map fst (dict_set k v d)) <-> k' = k \/ In k' (map fst d).
Proof.
  induction d as [|[k1 v1] d IH]; simpl.
  - intuition.
  - destruct (addr_eqb k k1) eqn:E; simpl.
    + apply addr_eqb_eq in E. subst. intuition.
    + rewrite IH. intuition.
Qed.

Lemma dict_set_nodup k v d : NoDup (map fst d) -> NoDup (map fst (dict_set k v d)).
Proof.
  induction d as [|[k1 v1] d IH]; simpl; intros N.
  - repeat constructor. intros [].
  - inversion N as [|? ? Hnin N']; subst.
    destruct (addr_eqb k k1) eqn:E; simpl.
    + now constructor.
    + constructor; [|now apply IH].
      rewrite dict_set_keys. intros [H | H]; [|contradiction].
      subst. now rewrite addr_eqb_refl in E.
Qed.

Lemma fold_left_snoc {A B} (f : A -> B -> A) l x a :
  fold_left f (l ++ [x]) a = f (fold_left f l a) x.
Proof. now rewrite fold_left_app. Qed.

Lemma wallets_lookup_nodup wallets_df : NoDup (map fst (wallets_lookup wallets_df)).
Proof.
  unfold wallets_lookup.
  induction wallets_df as [|x l IH] using rev_ind; simpl; [constructor|].
  rewrite fold_left_snoc. now apply dict_set_nodup.
Qed.

(** The dictionary holds, for an address, the name of the last entry of
    the directory that has it. *)
Lemma wallets_lookup_get wallets_df addr :
  dict_get (Some addr) (wallets_lookup wallets_df) = last_name_for wallets_df addr.
Proof.
  unfold wallets_lookup, last_name_for.
  induction wallets_df as [|x l IH] using rev_ind; simpl; [reflexivity|].
  rewrite fold_left_snoc, dict_get_set, rev_app_distr.
  rewrite (addr_eqb_sym (Some addr)).
  change (List.rev [x] ++ List.rev l)%list with (x :: List.rev l).
  cbn [filter].
  destruct (addr_eqb (Addresses x) (Some addr)); [reflexivity | exact IH].
Qed.

Lemma name_after_absent d addr nm :
  ~ In (Some addr) (map fst d) -> name_after d addr nm = nm.
Proof.
  unfold name_after. revert nm.
  induction d as [|[k v] d IH]; simpl; intros nm H; [reflexivity|].
  destruct (addr_eqb k (Some addr)) eqn:E.
  - apply addr_eqb_eq in E. exfalso. apply H. now left.
  - apply IH. intros Hin. apply H. now right.
Qed.

Lemma dict_get_cons k' k v d :
  dict_get k' ((k, v) :: d) = if addr_eqb k' k then Some v else dict_get k' d.
Proof. unfold dict_get. cbn [find fst snd]. now destruct (addr_eqb k' k). Qed.

Lemma name_after_cons k v d addr nm :
  name_after ((k, v) :: d) addr nm
  = name_after d addr (if addr_eqb k (Some addr) then v else nm).
Proof. reflexivity. Qed.

Lemma name_after_get d addr nm :
  NoDup (map fst d) ->
  name_after d addr nm
  = match dict_get (Some addr) d with Some n => n | None => nm end.
Proof.
  revert nm. induction d as [|[k v] d IH]; intros nm N; [reflexivity|].
  inversion N as [|? ? Hnin N']; subst.
  rewrite name_after_cons, dict_get_cons, (addr_eqb_sym (Some addr)).
  destruct (addr_eqb k (Some addr)) eqn:E.
  - apply addr_eqb_eq in E. subst k. now apply name_after_absent.
  - apply (IH nm N').
Qed.

Lemma replace_addresses_names lookup : forall grouped,
  replace_addresses lookup grouped
  = map (fun gn => (fst gn, name_after lookup (g_Destination_Address (fst gn)) (snd gn)))
        grouped.
Proof.
  unfold replace_addresses, name_after.
  induction lookup as [|[k v] lookup IH]; simpl; intros grouped.
  - rewrite <- (map_id grouped) at 1. apply map_ext. now intros [g n].
  - rewrite IH. destruct k as [a|]; simpl.
    + unfold set_wallet_name. rewrite map_map. apply map_ext. intros [g n]; simpl.
      rewrite (String.eqb_sym a). destruct (g_Destination_Address g =? a); reflexivity.
    + reflexivity.
Qed.

(** Every row of [grouped] carries the resolved name of its address. *)
Lemma named_groups_eq ba wallets_df :
  named_groups ba wallets_df
  = map (fun g => (g, match last_name_for wallets_df (g_Destination_Address g) with
                      | Some n => n
                      | None => g_Destination_Address g
                      end))
        (groupby_sum ba).
Proof.
  unfold named_groups. destruct wallets_df as [|x l].
  - reflexivity.
  - rewrite replace_addresses_names, map_map. apply map_ext. intros g; simpl fst; simpl snd.
    rewrite name_after_get by apply wallets_lookup_nodup.
    now rewrite wallets_lookup_get.
Qed.

Lemma stage1_rows_eq ba wallets_df :
  map stage1_row (named_groups ba wallets_df)
  = map (stage1_spec_row ba wallets_df) (map group_key (groupby_sum ba)).
Proof.
  rewrite named_groups_eq, !map_map. apply map_ext_in. intros g Hin.
  destruct (groups_of_groupby_sum ba) as (_ & Hg & _).
  destruct (Hg g Hin) as (_ & Hq & Hv).
  unfold stage1_row, stage1_spec_row; simpl. now rewrite Hq, Hv.
Qed.

(* ================================================================== *)
(** * Stage 1: the claims *)
(* ================================================================== *)

Lemma balance_adjustments_In anchorage_df r :
  In r (balance_adjustments anchorage_df)
  <-> In r anchorage_df /\ Type_ r = "Balance Adjustment".
Proof.
  unfold balance_adjustments, is_balance_adjustment.
  now rewrite filter_In, String.eqb_eq.
Qed.

Lemma filter_all_false {A} (f : A -> bool) l :
  (forall x, In x l -> f x = false) -> filter f l = [].
Proof.
  induction l as [|x l IH]; simpl; intros H; [reflexivity|].
  rewrite (H x) by now left. apply IH. intros y Hy. apply H. now right.
Qed.

(** The order of the output: dates ascending, and within one date wallet
    names ascending, compared character by character. *)
Lemma key_leb_spec a b :
  key_leb a b = true
  <-> date_compare (fst a) (fst b) = Lt
      \/ (fst a = fst b /\ String.leb (snd a) (snd b) = true).
Proof.
  unfold key_leb, key_compare, String.leb.
  destruct (date_compare (fst a) (fst b)) eqn:E; simpl.
  - apply (cmp_eq (cmp := date_compare)) in E. rewrite E.
    destruct (String.compare (snd a) (snd b)); intuition congruence.
  - intuition.
  - split; [discriminate|]. intros [H | [H _]]; [discriminate|].
    rewrite H, (cmp_refl date_compare) in E. discriminate.
Qed.

(** Stage 1 on a non-empty selection of rows. *)
Lemma process_stage_1_rows anchorage_df wallets_df w :
  balance_adjustments anchorage_df <> [] ->
  process_stage_1 anchorage_df wallets_df w
  = (sort_by stage1_key
       (map (stage1_spec_row (balance_adjustments anchorage_df) wallets_df)
            (map group_key (groupby_sum (balance_adjustments anchorage_df)))), w).
Proof.
  intros H. unfold process_stage_1.
  destruct (balance_adjustments anchorage_df) as [|r ba] eqn:E; [contradiction|].
  unfold ret. now rewrite stage1_rows_eq.
Qed.


Lemma groupby_sum_keys ba k :
  In k (map group_key (groupby_sum ba)) <-> exists r, In r ba /\ row_key r = k.
Proof.
  destruct (groups_of_groupby_sum ba) as (_ & Hg & Hr). split.
  - intros Hin. apply in_map_iff in Hin. destruct Hin as (g & <- & Hin).
    destruct (Hg g Hin) as (Hne & _).
    destruct (rows_of_key (group_key g) ba) as [|r l] eqn:E; [contradiction|].
    assert (H : In r (rows_of_key (group_key g) ba)) by (rewrite E; now left).
    apply filter_In in H. destruct H as [H1 H2].
    exists r. split; [exact H1 | now apply key_eqb_eq].
  - intros (r & Hin & <-). now apply Hr.
Qed.



Lemma last_name_for_last earlier last_entry later addr :
  Addresses last_entry = Some addr ->
  (forall e, In e later -> Addresses e <> Some addr) ->
  last_name_for (earlier ++ last_entry :: later) addr = Some (Name last_entry).
Proof.
  intros Ha Hl. unfold last_name_for.
  rewrite rev_app_distr. cbn [List.rev]. rewrite <- app_assoc, filter_app.
  rewrite (filter_all_false _ (List.rev later)).
  - change ([last_entry] ++ List.rev earlier)%list with (last_entry :: List.rev earlier).
    cbn [app filter]. rewrite Ha, addr_eqb_refl. reflexivity.
  - intros e He. apply in_rev in He.
    destruct (addr_eqb (Addresses e) (Some addr)) eqn:E; [|reflexivity].
    apply addr_eqb_eq in E. now apply Hl in He.
Qed.

(** C10. When several entries of the wallet directory have the same
    address, stage 1 gives every group of that destination address the
    Name of the last of them: [last_entry] is an entry with address [addr]
    that no later entry shares.  Every row of [grouped] with that
    destination address carries its name, and for every Balance Adjustment
    row sent to that address the output holds the row of its (date,
    address) pair under that name. *)
Theorem stage1_duplicate_address_takes_last_name
        (anchorage_df : list AnchorageRow) (wallets_df earlier later : list WalletRow)
        (last_entry : WalletRow) (addr : string) (w : World) :
  wallets_df = (earlier ++ last_entry :: later)%list ->
  Addresses last_entry = Some addr ->
  (forall e, In e later -> Addresses e <> Some addr) ->
  let ba := balance_adjustments anchorage_df in
  (forall gn, In gn (named_groups ba wallets_df) ->
              g_Destination_Address (fst gn) = addr -> snd gn = Name last_entry)
  /\ (forall r, In r anchorage_df -> Type_ r = "Balance Adjustment" ->
                Destination_Address r = addr ->
                In (mkStage1Row (dt_date (End_Time r)) (Name last_entry)
                      (sum_Z (map Asset_Quantity_Before_Fee (rows_of_key (row_key r) ba)))
                      (sum_Z (map Value_USD (rows_of_key (row_key r) ba))))
                   (fst (process_stage_1 anchorage_df wallets_df w))).
Proof.
  intros Hw Ha Hl ba.
  assert (Hlast : last_name_for wallets_df addr = Some (Name last_entry))
    by (rewrite Hw; now apply last_name_for_last).
  split.
  - intros gn Hin Hg. rewrite named_groups_eq in Hin.
    apply in_map_iff in Hin. destruct Hin as (g & <- & _). simpl in *.
    now rewrite Hg, Hlast.
  - intros r Hin Ht Hd.
    assert (Hba : In r ba) by (apply balance_adjustments_In; auto).
    assert (Hne : balance_adjustments anchorage_df <> [])
      by (intros E; unfold ba in Hba; rewrite E in Hba; exact Hba).
    rewrite (process_stage_1_rows _ _ _ Hne). simpl.
    apply (sort_by_in stage1_key). apply in_map_iff.
    exists (row_key r). split.
    + unfold stage1_spec_row, row_key; simpl. now rewrite Hd, Hlast.
    + apply groupby_sum_keys. exists r. auto.
Qed.

(* ================================================================== *)
(** * Formatting facts *)
(* ================================================================== *)

Lemma length_append (a b : string) :
  String.length (a ++ b) = String.length a + String.length b.
Proof. induction a as [|c a IH]; simpl; [reflexivity | now rewrite IH]. Qed.

Lemma length_zeros n : String.length (zeros n) = n.
Proof. induction n as [|n IH]; simpl; [reflexivity | now rewrite IH]. Qed.

Lemma length_zfill w s : String.length s <= w -> String.length (zfill w s) = w.
Proof. intros H. unfold zfill. rewrite length_append, length_zeros. lia. Qed.


Lemma all_digits_append a b :
  all_digits (a ++ b) = all_digits a && all_digits b.
Proof.
  unfold all_digits. induction a as [|c a IH]; simpl; [reflexivity|].
  now rewrite IH, andb_assoc.
Qed.

Lemma all_digits_zeros n : all_digits (zeros n) = true.
Proof. induction n as [|n IH]; [reflexivity | exact IH]. Qed.

Lemma all_digits_uint d : all_digits (NilEmpty.string_of_uint d) = true.
Proof. induction d; [reflexivity | exact IHd ..]. Qed.

Lemma all_digits_digits n : all_digits (digits n) = true.
Proof.
  unfold digits, NilZero.string_of_uint.
  destruct (Nat.to_uint n) eqn:E; try reflexivity; rewrite <- E; apply all_digits_uint.
Qed.

Lemma all_digits_zfill w n : all_digits (zfill w (digits n)) = true.
Proof.
  unfold zfill. now rewrite all_digits_append, all_digits_zeros, all_digits_digits.
Qed.

Lemma length_digits_small n : n < 100 -> String.length (digits n) <= 2.
Proof.
  intros H.
  assert (T : forallb (fun k => (String.length (digits k) <=? 2)%nat) (seq 0 100) = true)
    by (vm_compute; reflexivity).
  rewrite forallb_forall in T. apply Nat.leb_le. apply T. apply in_seq. lia.
Qed.

(** The timestamp of an id has 14 characters, all of them digits. *)
Lemma strftime_YmdHMS_length t :
  valid_datetime t -> String.length (strftime_YmdHMS t) = 14.
Proof.
  intros (Hy & Hm & Hd & HH & HM & HS). unfold strftime_YmdHMS.
  rewrite !length_append.
  rewrite (length_zfill 4) by lia.
  rewrite !(length_zfill 2) by (apply length_digits_small; lia).
  reflexivity.
Qed.


Lemma parse_nat_zeros k s : parse_nat (zeros k ++ s) = parse_nat s.
Proof.
  unfold parse_nat. induction k as [|k IH]; [reflexivity|].
  cbn [zeros append NilEmpty.uint_of_string].
  destruct (NilEmpty.uint_of_string (zeros k ++ s)) as [u|] eqn:E1;
    destruct (NilEmpty.uint_of_string s) as [v|] eqn:E2;
    simpl in *; try discriminate; auto.
Qed.

Lemma parse_nat_digits n : parse_nat (digits n) = Some n.
Proof.
  unfold parse_nat, digits, NilZero.string_of_uint.
  pose proof (Unsigned.of_to n) as E.
  destruct (Nat.to_uint n) eqn:Eu;
    try (rewrite <- Eu, NilEmpty.usu; simpl; now rewrite Eu, E).
  simpl in *. now rewrite <- E.
Qed.

Lemma parse_nat_zfill w n : parse_nat (zfill w (digits n)) = Some n.
Proof. unfold zfill. now rewrite parse_nat_zeros, parse_nat_digits. Qed.

Lemma parse_nat_minus s : parse_nat (String "-" s) = None.
Proof.
  unfold parse_nat. cbn [NilEmpty.uint_of_string].
  now destruct (NilEmpty.uint_of_string s).
Qed.

(** [format_06d] can be read back, so it is one-to-one. *)
Lemma parse_06d_format z : parse_06d (format_06d z) = Some z.
Proof.
  unfold format_06d. destruct (z <? 0)%Z eqn:E.
  - apply Z.ltb_lt in E. cbn [append parse_06d].
    rewrite parse_nat_zfill. cbn [option_map]. f_equal; lia.
  - apply Z.ltb_ge in E.
    pose proof (parse_nat_zfill 6 (Z.to_nat z)) as P.
    destruct (zfill 6 (digits (Z.to_nat z))) as [|c s] eqn:Es.
    + unfold parse_nat in P. cbn in P. injection P as P.
      cbn. f_equal; lia.
    + assert (Hc : c <> "-"%char).
      { intros ->. rewrite parse_nat_minus in P. discriminate. }
      assert (Hp : parse_06d (String c s) = option_map Z.of_nat (parse_nat (String c s))).
      { unfold parse_06d.
        destruct c as [[] [] [] [] [] [] [] []]; try reflexivity. now elim Hc. }
      rewrite Hp, P. cbn [option_map]. f_equal; lia.
Qed.

Lemma format_06d_inj z1 z2 : format_06d z1 = format_06d z2 -> z1 = z2.
Proof.
  intros E. pose proof (parse_06d_format z1) as P.
  rewrite E, parse_06d_format in P. congruence.
Qed.


Lemma append_inj_length (a a' b b' : string) :
  String.length a = String.length a' -> a ++ b = a' ++ b' -> a = a' /\ b = b'.
Proof.
  revert a'. induction a as [|c a IH]; intros [|c' a']; simpl; try discriminate.
  - auto.
  - intros L E. injection L as L. injection E as -> E.
    destruct (IH a' L E) as [-> ->]. auto.
Qed.

(* ================================================================== *)
(** * The id generator *)
(* ================================================================== *)

Lemma unique_id_inj t1 t2 c1 c2 :
  String.length t1 = String.length t2 ->
  unique_id t1 c1 = unique_id t2 c2 -> t1 = t2 /\ c1 = c2.
Proof.
  unfold unique_id. intros L E. cbn [append] in E. injection E as E.
  destruct (append_inj_length _ _ _ _ L E) as [-> E'].
  split; [reflexivity | now apply format_06d_inj].
Qed.

Lemma load_counter_eq w :
  load_counter w = (tt, set_id_counter (Some (loaded_counter w)) w).
Proof.
  unfold load_counter, loaded_counter. destruct w as [[c|] f k m msgs]; reflexivity.
Qed.

Section IdGeneratorFacts.
Variable now : nat -> datetime.
Variable disk_ok : nat -> bool.

Lemma get_next_id_eq w c :
  id_counter w = Some c ->
  get_next_id now disk_ok w
  = (unique_id (strftime_YmdHMS (now (issued w))) c,
     mkWorld (Some (c + 1)%Z)
             (if disk_ok (issued w) then Some (c + 1)%Z else counter_file w)
             (S (issued w)) (stage3_matched_transactions w) (messages w)).
Proof.
  intros H. unfold get_next_id, save_counter. rewrite H. simpl.
  destruct (disk_ok (issued w)); reflexivity.
Qed.

Lemma next_id_eq w :
  next_id now disk_ok w
  = (unique_id (strftime_YmdHMS (now (issued w))) (loaded_counter w),
     mkWorld (Some (loaded_counter w + 1)%Z)
             (if disk_ok (issued w) then Some (loaded_counter w + 1)%Z
              else counter_file w)
             (S (issued w)) (stage3_matched_transactions w) (messages w)).
Proof.
  unfold next_id, get_id_generator, bind. rewrite load_counter_eq.
  now rewrite (get_next_id_eq _ (loaded_counter w)).
Qed.

(** The ids and the world after [count] issuances. *)
Lemma get_multiple_ids_eq count : forall w c,
  id_counter w = Some c ->
  let r := get_multiple_ids now disk_ok count w in
  fst r = map (fun i => unique_id (strftime_YmdHMS (now (issued w + i)))
                                  (c + Z.of_nat i)%Z) (seq 0 count)
  /\ id_counter (snd r) = Some (c + Z.of_nat count)%Z
  /\ issued (snd r) = issued w + count
  /\ stage3_matched_transactions (snd r) = stage3_matched_transactions w
  /\ messages (snd r) = messages w
  /\ (0 < count -> disk_ok (issued w + count - 1) = true ->
      counter_file (snd r) = Some (c + Z.of_nat count)%Z)
  /\ ((forall i, i < count -> disk_ok (issued w + i) = false) ->
      counter_file (snd r) = counter_file w).
Proof.
  induction count as [|n IH]; intros w c Hc; cbn zeta.
  - simpl. rewrite Z.add_0_r, Nat.add_0_r. repeat split; auto. lia.
  - cbn [get_multiple_ids]. unfold bind. rewrite (get_next_id_eq w c Hc).
    set (w1 := mkWorld _ _ _ _ _).
    assert (Hc1 : id_counter w1 = Some (c + 1)%Z) by reflexivity.
    specialize (IH w1 (c + 1)%Z Hc1). cbn zeta in IH.
    destruct (get_multiple_ids now disk_ok n w1) as [ids w2].
    cbn [fst snd ret] in *.
    destruct IH as (I1 & I2 & I3 & I4 & I5 & I6 & I7).
    subst w1. cbn [issued counter_file stage3_matched_transactions messages] in *.
    split; [|split; [|split; [|split; [|split; [|split]]]]].
    + rewrite I1. cbn [seq map]. rewrite Nat.add_0_r, Z.add_0_r. f_equal.
      rewrite <- seq_shift, map_map. apply map_ext. intros i.
      replace (S (issued w) + i) with (issued w + S i) by lia.
      replace (c + 1 + Z.of_nat i)%Z with (c + Z.of_nat (S i))%Z by lia.
      reflexivity.
    + rewrite I2. f_equal; lia.
    + lia.
    + exact I4.
    + exact I5.
    + intros _ Hd. destruct n as [|n].
      * rewrite I7 by (intros i Hi; lia).
        replace (issued w + 1 - 1) with (issued w) in Hd by lia.
        rewrite Hd. f_equal; lia.
      * assert (Hd' : disk_ok (S (issued w) + S n - 1) = true).
        { replace (S (issued w) + S n - 1) with (issued w + S (S n) - 1) by lia.
          exact Hd. }
        rewrite (I6 (Nat.lt_0_succ n) Hd'). f_equal; lia.
    + intros Hd. rewrite I7.
      * specialize (Hd 0). rewrite Nat.add_0_r in Hd. rewrite Hd by lia. reflexivity.
      * intros i Hi. replace (S (issued w) + i) with (issued w + S i) by lia.
        apply Hd. lia.
Qed.

Lemma unique_ids_nodup (k : nat) (c : Z) count :
  (forall i, valid_datetime (now i)) ->
  NoDup (map (fun i => unique_id (strftime_YmdHMS (now (k + i))) (c + Z.of_nat i)%Z)
             (seq 0 count)).
Proof.
  intros Hv. apply Finite.Injective_map_NoDup; [|apply seq_NoDup].
  intros i j E. apply unique_id_inj in E.
  - destruct E as [_ E]. lia.
  - now rewrite !strftime_YmdHMS_length.
Qed.


End IdGeneratorFacts.

(* ================================================================== *)
(** * Stage 2 *)
(* ================================================================== *)

Lemma same_but_messages_refl w : same_but_messages w w.
Proof. repeat split. Qed.

Lemma say_frame msg w : same_but_messages w (snd (say msg w)).
Proof. repeat split. Qed.

Lemma withdrawal_lookup wallet_name wallets_df w :
  fst (_get_withdrawal_account_id wallet_name wallets_df w)
  = withdrawal_account wallet_name wallets_df
  /\ same_but_messages w (snd (_get_withdrawal_account_id wallet_name wallets_df w)).
Proof.
  unfold _get_withdrawal_account_id, withdrawal_account, first_id_named.
  destruct (filter _ wallets_df); split; try reflexivity; repeat split.
Qed.

Lemma deposit_lookup wallet_name wallets_df vesting_pairs_df w :
  fst (_get_deposit_account_id wallet_name wallets_df vesting_pairs_df w)
  = deposit_account wallet_name wallets_df vesting_pairs_df
  /\ same_but_messages
       w (snd (_get_deposit_account_id wallet_name wallets_df vesting_pairs_df w)).
Proof.
  unfold _get_deposit_account_id, deposit_account, first_id_named.
  destruct (filter _ vesting_pairs_df) as [|p ps].
  - split; [reflexivity | repeat split].
  - destruct (filter _ wallets_df); split; try reflexivity; repeat split.
Qed.

(** A failed withdrawal lookup reports the wallet name of the row. *)
Lemma withdrawal_missing_reported wallet_name wallets_df w :
  withdrawal_account wallet_name wallets_df = None ->
  _get_withdrawal_account_id wallet_name wallets_df w
  = (None, mkWorld (id_counter w) (counter_file w) (issued w)
                   (stage3_matched_transactions w)
                   (messages w
                    ++ [Error (wallet_name ++ " is missing a vesting tokens wallet")])).
Proof.
  unfold withdrawal_account, first_id_named, _get_withdrawal_account_id.
  destruct (filter _ wallets_df); [reflexivity | discriminate].
Qed.

(** Without the prefix "Aptos " the name is searched as it is. *)
Lemma withdrawal_search_name_plain wallet_name :
  startswith wallet_name "Aptos " = false ->
  withdrawal_search_name wallet_name = wallet_name ++ " vesting tokens".
Proof. unfold withdrawal_search_name. now intros ->. Qed.

(** The deposit half of a row does not depend on the withdrawal half. *)
Lemma withdrawal_skipped_deposit_kept wallets_df vesting_pairs_df row wid did :
  skipped (withdrawal_account (Wallet_Name row) wallets_df) = true ->
  stage2_rows wallets_df vesting_pairs_df row wid did
  = entry_rows (deposit_account (Wallet_Name row) wallets_df vesting_pairs_df)
               did "deposit" (Date row) (Sum_Quantity row) (Sum_Value row).
Proof.
  unfold stage2_rows, entry_rows, skipped.
  destruct (withdrawal_account (Wallet_Name row) wallets_df) as [a|]; [|reflexivity].
  destruct (truthy a); [discriminate | reflexivity].
Qed.

Lemma loaded_counter_some w c : id_counter w = Some c -> loaded_counter w = c.
Proof. unfold loaded_counter. now intros ->. Qed.

Section Stage2Facts.
Variable now : nat -> datetime.
Variable disk_ok : nat -> bool.
Variable wallets_df : list WalletRow.
Variable vesting_pairs_df : list VestingPair.

(** One turn of the loop: two ids are drawn, whatever the lookups give. *)
Lemma stage2_body_eq row w :
  let r := stage2_body now disk_ok wallets_df vesting_pairs_df row w in
  let k := issued w in
  let c := loaded_counter w in
  fst r = stage2_rows wallets_df vesting_pairs_df row
                      (unique_id (strftime_YmdHMS (now k)) c)
                      (unique_id (strftime_YmdHMS (now (S k))) (c + 1)%Z)
  /\ id_counter (snd r) = Some (c + 2)%Z
  /\ issued (snd r) = S (S k)
  /\ stage3_matched_transactions (snd r) = stage3_matched_transactions w
  /\ counter_file (snd r)
     = (if disk_ok (S k) then Some (c + 2)%Z
        else if disk_ok k then Some (c + 1)%Z else counter_file w).
Proof.
  cbn zeta. unfold stage2_body, bind. rewrite (next_id_eq now disk_ok w).
  set (w1 := mkWorld _ _ _ _ _). rewrite (next_id_eq now disk_ok w1).
  assert (L1 : loaded_counter w1 = (loaded_counter w + 1)%Z) by reflexivity.
  rewrite L1. set (w2 := mkWorld _ _ _ _ _).
  destruct (withdrawal_lookup (Wallet_Name row) wallets_df w2) as [A1 F1].
  destruct (_get_withdrawal_account_id (Wallet_Name row) wallets_df w2) as [wa w3].
  cbn [fst snd] in A1, F1.
  destruct (deposit_lookup (Wallet_Name row) wallets_df vesting_pairs_df w3) as [A2 F2].
  destruct (_get_deposit_account_id (Wallet_Name row) wallets_df vesting_pairs_df w3)
    as [da w4].
  cbn [fst snd ret] in *. subst wa da.
  destruct F1 as (a1 & a2 & a3 & a4), F2 as (b1 & b2 & b3 & b4).
  rewrite b1, b2, b3, b4, a1, a2, a3, a4. subst w2 w1.
  cbn [id_counter counter_file issued stage3_matched_transactions].
  repeat split.
  - f_equal; lia.
  - destruct (disk_ok (S (issued w))); [f_equal; lia | reflexivity].
Qed.

(** The whole loop. *)
Lemma stage2_loop_eq rows : forall w,
  let r := for_each (stage2_body now disk_ok wallets_df vesting_pairs_df) rows w in
  let n := List.length rows in
  fst r = stage2_output now wallets_df vesting_pairs_df (issued w) (loaded_counter w) rows
  /\ loaded_counter (snd r) = (loaded_counter w + 2 * Z.of_nat n)%Z
  /\ issued (snd r) = issued w + 2 * n
  /\ stage3_matched_transactions (snd r) = stage3_matched_transactions w
  /\ (0 < n -> id_counter (snd r) = Some (loaded_counter w + 2 * Z.of_nat n)%Z)
  /\ (0 < n -> disk_ok (issued w + 2 * n - 1) = true ->
      counter_file (snd r) = Some (loaded_counter w + 2 * Z.of_nat n)%Z)
  /\ (rows = [] -> snd r = w).
Proof.
  induction rows as [|row rows IH]; intros w; cbn zeta.
  - cbn [for_each ret fst snd List.length stage2_output].
    repeat split; try lia; intros H; lia.
  - cbn [for_each]. unfold bind.
    pose proof (stage2_body_eq row w) as B. cbn zeta in B.
    destruct (stage2_body now disk_ok wallets_df vesting_pairs_df row w) as [out w1].
    cbn [fst snd] in B. destruct B as (B1 & B2 & B3 & B4 & B5).
    specialize (IH w1). cbn zeta in IH.
    destruct (for_each _ rows w1) as [rest w2].
    cbn [fst snd ret] in *.
    destruct IH as (I1 & I2 & I3 & I4 & I5 & I6 & I7).
    rewrite (loaded_counter_some _ _ B2), B3 in *.
    cbn [List.length stage2_output].
    split; [now rewrite B1, I1|].
    split; [rewrite I2; lia|].
    split; [rewrite I3; lia|].
    split; [now rewrite I4|].
    split; [|split; [|discriminate]].
    + intros _. destruct rows as [|r' rows'].
      * rewrite (I7 eq_refl), B2. f_equal; cbn [List.length]; lia.
      * rewrite I5 by (cbn [List.length]; lia). f_equal; lia.
    + intros _ Hd. destruct rows as [|r' rows'].
      * rewrite (I7 eq_refl), B5. cbn [List.length] in *.
        replace (issued w + 2 * 1 - 1) with (S (issued w)) in Hd by lia.
        rewrite Hd. f_equal; lia.
      * rewrite I6.
        -- f_equal; lia.
        -- cbn [List.length]; lia.
        -- replace (S (S (issued w)) + 2 * List.length (r' :: rows') - 1)
             with (issued w + 2 * S (List.length (r' :: rows')) - 1) by lia.
           exact Hd.
Qed.

Lemma entry_rows_in acc the_id kind d amt cst e :
  In e (entry_rows acc the_id kind d amt cst) ->
  skipped acc = false
  /\ exists a, acc = Some a /\ e = vesting_row the_id kind a d amt cst.
Proof.
  unfold entry_rows, skipped. destruct acc as [a|]; [|intros []].
  destruct (truthy a); [|intros []].
  intros [<- | []]. split; [reflexivity|]. now exists a.
Qed.


Lemma stage2_rows_ok row wid did :
  stage2_part_ok row (stage2_rows wallets_df vesting_pairs_df row wid did).
Proof.
  unfold stage2_part_ok, stage2_rows, entry_rows.
  destruct (withdrawal_account (Wallet_Name row) wallets_df) as [a|];
    [destruct (truthy a)|];
    (destruct (deposit_account (Wallet_Name row) wallets_df vesting_pairs_df) as [b|];
     [destruct (truthy b)|]);
    cbn; (split; [lia|]); (split; [lia|]); (split; [lia|]);
    intros e He; repeat (destruct He as [<- | He]); try contradiction; cbn; auto 6.
Qed.

Lemma stage2_output_parts rows : forall k c,
  exists parts,
    stage2_output now wallets_df vesting_pairs_df k c rows = List.concat parts
    /\ Forall2 stage2_part_ok rows parts.
Proof.
  induction rows as [|row rows IH]; intros k c.
  - exists []. split; [reflexivity | constructor].
  - destruct (IH (S (S k)) (c + 2)%Z) as (parts & E & F).
    exists (stage2_rows wallets_df vesting_pairs_df row
              (unique_id (strftime_YmdHMS (now k)) c)
              (unique_id (strftime_YmdHMS (now (S k))) (c + 1)%Z) :: parts).
    split; [cbn [stage2_output List.concat]; now rewrite E|].
    constructor; [apply stage2_rows_ok | exact F].
Qed.

(** The entries of the loop are those of its rows, the [j]-th row having
    drawn the ids number [2j] and [2j+1]. *)
Lemma stage2_output_in rows : forall k c e,
  In e (stage2_output now wallets_df vesting_pairs_df k c rows)
  <-> exists j row,
        nth_error rows j = Some row
        /\ In e (stage2_rows wallets_df vesting_pairs_df row
                   (unique_id (strftime_YmdHMS (now (k + 2 * j)))
                              (c + 2 * Z.of_nat j)%Z)
                   (unique_id (strftime_YmdHMS (now (k + 2 * j + 1)))
                              (c + 2 * Z.of_nat j + 1)%Z)).
Proof.
  induction rows as [|row rows IH]; intros k c e; cbn [stage2_output].
  - split; [intros [] | intros ([|j] & row & H & _); discriminate].
  - rewrite in_app_iff, IH. split.
    + intros [H | (j & r & Hn & H)].
      * exists 0, row. split; [reflexivity|].
        replace (k + 2 * 0) with k by lia.
        replace (k + 1) with (S k) by lia.
        replace (c + 2 * Z.of_nat 0)%Z with c by lia. exact H.
      * exists (S j), r. split; [exact Hn|].
        replace (k + 2 * S j) with (S (S k) + 2 * j) by lia.
        replace (c + 2 * Z.of_nat (S j))%Z with (c + 2 + 2 * Z.of_nat j)%Z by lia.
        exact H.
    + intros ([|j] & r & Hn & H).
      * left. cbn in Hn. injection Hn as <-.
        replace (k + 2 * 0) with k in H by lia.
        replace (k + 1) with (S k) in H by lia.
        replace (c + 2 * Z.of_nat 0)%Z with c in H by lia. exact H.
      * right. exists j, r. split; [exact Hn|].
        replace (k + 2 * S j) with (S (S k) + 2 * j) in H by lia.
        replace (c + 2 * Z.of_nat (S j))%Z with (c + 2 + 2 * Z.of_nat j)%Z in H by lia.
        exact H.
Qed.

Lemma process_stage_2_eq stage1_df w :
  let r := process_stage_2 now disk_ok stage1_df wallets_df vesting_pairs_df w in
  let n := List.length stage1_df in
  fst r = stage2_output now wallets_df vesting_pairs_df (issued w) (loaded_counter w)
                        stage1_df
  /\ loaded_counter (snd r) = (loaded_counter w + 2 * Z.of_nat n)%Z
  /\ issued (snd r) = issued w + 2 * n
  /\ stage3_matched_transactions (snd r) = stage3_matched_transactions w
  /\ (0 < n -> id_counter (snd r) = Some (loaded_counter w + 2 * Z.of_nat n)%Z)
  /\ (0 < n -> disk_ok (issued w + 2 * n - 1) = true ->
      counter_file (snd r) = Some (loaded_counter w + 2 * Z.of_nat n)%Z).
Proof.
  destruct stage1_df as [|row rows].
  - cbn. unfold loaded_counter. cbn. repeat split; try lia; intros H; lia.
  - unfold process_stage_2.
    destruct (stage2_loop_eq (row :: rows) w) as (E1 & E2 & E3 & E4 & E5 & E6 & _).
    cbn zeta. auto 10.
Qed.

(** C6. For every table of stage-1 rows, the output of stage 2 splits
    into one part per input row, in order; each part has at most two
    entries, at most one withdrawal and at most one deposit, and every
    entry of the part carries the row's 'Asset Quantity (Before Fee)' as
    amount and its 'Value (USD)' as cost, unchanged, and noon of the
    row's date as time. *)
Theorem stage2_at_most_two_entries_per_row (stage1_df : list Stage1Row) (w : World) :
  exists parts : list (list LedgerRow),
    fst (process_stage_2 now disk_ok stage1_df wallets_df vesting_pairs_df w)
    = List.concat parts
    /\ Forall2 stage2_part_ok stage1_df parts.
Proof.
  destruct (process_stage_2_eq stage1_df w) as (E & _). cbn zeta in E. rewrite E.
  apply stage2_output_parts.
Qed.

Lemma stage2_rows_in row wid did e :
  In e (stage2_rows wallets_df vesting_pairs_df row wid did) ->
  (id e = wid /\ transactionType e = "withdrawal"
   /\ skipped (withdrawal_account (Wallet_Name row) wallets_df) = false)
  \/ (id e = did /\ transactionType e = "deposit"
      /\ skipped (deposit_account (Wallet_Name row) wallets_df vesting_pairs_df) = false).
Proof.
  unfold stage2_rows. intros H. apply in_app_or in H.
  destruct H as [H | H]; apply entry_rows_in in H;
    destruct H as (Hs & a & _ & ->); [left | right]; auto.
Qed.

Lemma unique_id_clock_inj (k1 k2 : nat) (c1 c2 : Z) :
  (forall i, valid_datetime (now i)) ->
  unique_id (strftime_YmdHMS (now k1)) c1 = unique_id (strftime_YmdHMS (now k2)) c2 ->
  c1 = c2.
Proof.
  intros Hv E. apply unique_id_inj in E; [tauto|].
  now rewrite !strftime_YmdHMS_length.
Qed.


End Stage2Facts.

(* ================================================================== *)
(** * Stage 3 *)
(* ================================================================== *)

Lemma filter_filter {A} (p q : A -> bool) l :
  filter q (filter p l) = filter (fun x => p x && q x) l.
Proof.
  induction l as [|x l IH]; simpl; [reflexivity|].
  destruct (p x); simpl; [destruct (q x)|]; now rewrite IH.
Qed.

Lemma head_filter_find {A} (p : A -> bool) l :
  match filter p l with [] => None | x :: _ => Some x end = find p l.
Proof.
  induction l as [|x l IH]; simpl; [reflexivity|]. now destruct (p x).
Qed.

Lemma find_first {A} (p : A -> bool) l t :
  find p l = Some t ->
  exists before after,
    l = (before ++ t :: after)%list /\ p t = true
    /\ forall x, In x before -> p x = false.
Proof.
  induction l as [|x l IH]; simpl; [discriminate|].
  destruct (p x) eqn:E.
  - intros H. injection H as ->. exists [], l. repeat split; auto. intros ? [].
  - intros H. destruct (IH H) as (before & after & -> & Hp & Hb).
    exists (x :: before), after. repeat split; auto.
    intros y [<- | Hy]; auto.
Qed.

(** The three filters of [_calculate_bitwave_amount], as one condition. *)
Lemma reward_candidate_iff account_id d expected t :
  reward_candidate account_id d expected t = true
  <-> bw_walletId t = account_id
      /\ (timestamp_value (midnight d) < timestamp_value (bw_dateTime t))%Z
      /\ (timestamp_value (bw_dateTime t)
          <= timestamp_value (midnight d) + 10 * ns_per_day)%Z
      /\ (expected < bw_amount t)%Z.
Proof.
  unfold reward_candidate, in_window, plus_days.
  rewrite !andb_true_iff, String.eqb_eq, !Z.ltb_lt, Z.leb_le. tauto.
Qed.

Lemma calculate_bitwave_amount_eq bitwave_df account_id d expected w :
  _calculate_bitwave_amount bitwave_df account_id d expected w
  = match reward_match bitwave_df account_id d expected with
    | None => (None, w)
    | Some t =>
        (Some (bw_amount t - expected)%Z,
         set_matched
           (Some (records (stage3_matched_transactions w)
                  ++ [mkMatchRecord (bw_id t) (bw_amount t) expected
                                    (bw_amount t - expected)%Z])%list) w)
    end.
Proof.
  unfold reward_match, reward_candidate.
  rewrite <- head_filter_find.
  rewrite <- (filter_filter (fun t => (bw_walletId t =? account_id) && in_window d t)
                            (fun t => (expected <? bw_amount t)%Z)).
  rewrite <- (filter_filter (fun t => bw_walletId t =? account_id) (in_window d)).
  unfold _calculate_bitwave_amount.
  destruct (filter (fun t => bw_walletId t =? account_id) bitwave_df) as [|x xs];
    [reflexivity|].
  destruct (filter (in_window d) (x :: xs)) as [|y ys]; [reflexivity|].
  destruct (filter (fun t => (expected <? bw_amount t)%Z) (y :: ys)) as [|z zs];
    [reflexivity|].
  unfold bind, append_match, ret, records.
  destruct (stage3_matched_transactions w); reflexivity.
Qed.

Lemma reward_match_positive bitwave_df account_id d expected t :
  reward_match bitwave_df account_id d expected = Some t ->
  (bw_amount t - expected <=? 0)%Z = false.
Proof.
  intros H. apply find_some in H. destruct H as [_ H].
  apply reward_candidate_iff in H. apply Z.leb_gt. lia.
Qed.

Lemma records_append_all l acc : records (append_all l acc) = (records acc ++ l)%list.
Proof. destruct l; simpl; [now rewrite app_nil_r | reflexivity]. Qed.

Lemma append_all_app l1 l2 acc :
  append_all (l1 ++ l2) acc = append_all l2 (append_all l1 acc).
Proof.
  destruct l1 as [|x l1]; [reflexivity|].
  destruct l2 as [|y l2]; simpl; [now rewrite app_nil_r|].
  now rewrite <- app_assoc.
Qed.

Section Stage3Facts.
Variable now : nat -> datetime.
Variable disk_ok : nat -> bool.
Variable stage2_df : list LedgerRow.
Variable bitwave_df : list BitwaveRow.
Variable wallets_df : list WalletRow.
Variable vesting_pairs_df : list VestingPair.

(** One turn of the loop of stage 3. *)
Lemma stage3_body_eq row w :
  let r := stage3_body now disk_ok stage2_df bitwave_df wallets_df vesting_pairs_df
                       row w in
  match stage3_row_hit stage2_df bitwave_df wallets_df vesting_pairs_df row with
  | None => fst r = [] /\ same_but_messages w (snd r)
  | Some (account_id, expected, t) =>
      fst r = [(reward_row (unique_id (strftime_YmdHMS (now (issued w)))
                                      (loaded_counter w))
                           account_id (Date row) (bw_amount t - expected)%Z,
                mkDisplayRow (Date row)
                             (_get_wallet_name_from_id account_id wallets_df)
                             (bw_amount t - expected)%Z)]
      /\ stage3_matched_transactions (snd r)
         = Some (records (stage3_matched_transactions w)
                 ++ [mkMatchRecord (bw_id t) (bw_amount t) expected
                                   (bw_amount t - expected)%Z])%list
      /\ id_counter (snd r) = Some (loaded_counter w + 1)%Z
      /\ issued (snd r) = S (issued w)
  end.
Proof.
  cbn zeta. unfold stage3_body, stage3_row_hit, bind.
  destruct (deposit_lookup (Wallet_Name row) wallets_df vesting_pairs_df w) as [A F].
  destruct (_get_deposit_account_id (Wallet_Name row) wallets_df vesting_pairs_df w)
    as [acc w1].
  cbn [fst snd] in A, F. subst acc.
  destruct (deposit_account (Wallet_Name row) wallets_df vesting_pairs_df)
    as [account_id|]; [|split; [reflexivity | exact F]].
  destruct (negb (truthy account_id)); [split; [reflexivity | exact F]|].
  destruct (_get_stage2_deposit_amount stage2_df account_id (Date row))
    as [expected|]; [|split; [reflexivity | exact F]].
  rewrite calculate_bitwave_amount_eq.
  destruct (reward_match bitwave_df account_id (Date row) expected) as [t|] eqn:Em;
    [|split; [reflexivity | exact F]].
  rewrite (reward_match_positive _ _ _ _ _ Em).
  rewrite next_id_eq. cbn [fst snd ret].
  destruct F as (F1 & F2 & F3 & F4).
  unfold loaded_counter.
  cbn [set_matched id_counter counter_file issued stage3_matched_transactions].
  rewrite F1, F2, F3, F4. repeat split.
Qed.

Lemma stage3_body_matched row w :
  stage3_matched_transactions
    (snd (stage3_body now disk_ok stage2_df bitwave_df wallets_df vesting_pairs_df
                      row w))
  = append_all (stage3_row_matches stage2_df bitwave_df wallets_df vesting_pairs_df row)
               (stage3_matched_transactions w).
Proof.
  pose proof (stage3_body_eq row w) as B. cbn zeta in B.
  unfold stage3_row_matches.
  destruct (stage3_row_hit stage2_df bitwave_df wallets_df vesting_pairs_df row)
    as [[[account_id expected] t]|].
  - destruct B as (_ & B & _). exact B.
  - destruct B as (_ & _ & _ & _ & B). exact B.
Qed.

Lemma stage3_body_length row w :
  List.length
    (fst (stage3_body now disk_ok stage2_df bitwave_df wallets_df vesting_pairs_df
                      row w))
  = List.length (stage3_row_matches stage2_df bitwave_df wallets_df vesting_pairs_df row).
Proof.
  pose proof (stage3_body_eq row w) as B. cbn zeta in B.
  unfold stage3_row_matches.
  destruct (stage3_row_hit stage2_df bitwave_df wallets_df vesting_pairs_df row)
    as [[[account_id expected] t]|]; destruct B as (-> & _); reflexivity.
Qed.

(** A run of stage 3 appends its match records to the accumulator, and
    emits one ledger row per record. *)
Lemma process_stage_3_matched stage1_df w :
  let r := process_stage_3 now disk_ok stage1_df stage2_df bitwave_df wallets_df
                           vesting_pairs_df w in
  stage3_matched_transactions (snd r)
  = append_all (stage3_matches stage1_df stage2_df bitwave_df wallets_df vesting_pairs_df)
               (stage3_matched_transactions w)
  /\ List.length (fst (fst r))
     = List.length (stage3_matches stage1_df stage2_df bitwave_df wallets_df
                                   vesting_pairs_df).
Proof.
  cbn zeta. unfold process_stage_3, stage3_matches.
  destruct stage1_df as [|row0 rows0]; [split; reflexivity|].
  unfold bind, ret. generalize (row0 :: rows0). clear row0 rows0.
  intros rows. revert w.
  induction rows as [|row rows IH]; intros w; [split; reflexivity|].
  cbn [for_each flat_map]. unfold bind, ret.
  pose proof (stage3_body_matched row w) as Bm.
  pose proof (stage3_body_length row w) as Bl.
  destruct (stage3_body now disk_ok stage2_df bitwave_df wallets_df vesting_pairs_df
                        row w) as [out w1].
  cbn [fst snd] in Bm, Bl. specialize (IH w1).
  destruct (for_each _ rows w1) as [rest w2]. cbn [fst snd] in *.
  destruct IH as [I1 I2].
  rewrite append_all_app, <- Bm, I1. split; [reflexivity|].
  rewrite !length_map in *. rewrite !length_app. now rewrite Bl, I2.
Qed.

End Stage3Facts.

(* ================================================================== *)
(** * Stage 3 and stage 4: the claims *)
(* ================================================================== *)

Lemma process_stage_4_eq w :
  fst (process_stage_4 w) = map ignore_row (records (stage3_matched_transactions w))
  /\ stage3_matched_transactions (snd (process_stage_4 w)) = stage3_matched_transactions w.
Proof.
  unfold process_stage_4. destruct (stage3_matched_transactions w) eqn:E; cbn.
  - rewrite E. auto.
  - rewrite E. auto.
Qed.


Lemma process_stage_1_matched anchorage_df wallets_df w :
  stage3_matched_transactions (snd (process_stage_1 anchorage_df wallets_df w))
  = stage3_matched_transactions w.
Proof. unfold process_stage_1. now destruct (balance_adjustments anchorage_df). Qed.


Section PipelineClaims.
Variable now : nat -> datetime.
Variable disk_ok : nat -> bool.


(** C9. The accumulator of match records only grows.  Stages 1, 2 and 4
    leave it as it is, a run of stage 3 appends the records of its
    matches after those already there, and after two consecutive runs of
    stage 3 the accumulator holds what it held before, then the records
    of the first run, then those of the second; stage 4 then lists them
    all. *)
Theorem matched_accumulator_is_append_only
        (anchorage_df : list AnchorageRow)
        (stage1_df stage1_df' : list Stage1Row) (stage2_df stage2_df' : list LedgerRow)
        (bitwave_df bitwave_df' : list BitwaveRow)
        (wallets_df wallets_df' : list WalletRow)
        (vesting_pairs_df vesting_pairs_df' : list VestingPair) (w : World) :
  let run1 := process_stage_3 now disk_ok stage1_df stage2_df bitwave_df wallets_df
                              vesting_pairs_df in
  let run2 := process_stage_3 now disk_ok stage1_df' stage2_df' bitwave_df' wallets_df'
                              vesting_pairs_df' in
  let matches1 := stage3_matches stage1_df stage2_df bitwave_df wallets_df
                                 vesting_pairs_df in
  let matches2 := stage3_matches stage1_df' stage2_df' bitwave_df' wallets_df'
                                 vesting_pairs_df' in
  let before := records (stage3_matched_transactions w) in
  stage3_matched_transactions (snd (process_stage_1 anchorage_df wallets_df w))
  = stage3_matched_transactions w
  /\ stage3_matched_transactions
       (snd (process_stage_2 now disk_ok stage1_df wallets_df vesting_pairs_df w))
     = stage3_matched_transactions w
  /\ stage3_matched_transactions (snd (process_stage_4 w))
     = stage3_matched_transactions w
  /\ records (stage3_matched_transactions (snd (run1 w))) = (before ++ matches1)%list
  /\ List.length (fst (fst (run1 w))) = List.length matches1
  /\ records (stage3_matched_transactions (snd (run2 (snd (run1 w)))))
     = (before ++ matches1 ++ matches2)%list
  /\ fst (process_stage_4 (snd (run2 (snd (run1 w)))))
     = map ignore_row (before ++ matches1 ++ matches2).
Proof.
  intros run1 run2 matches1 matches2 before.
  destruct (process_stage_3_matched now disk_ok stage2_df bitwave_df wallets_df
              vesting_pairs_df stage1_df w) as [R1 L1].
  destruct (process_stage_3_matched now disk_ok stage2_df' bitwave_df' wallets_df'
              vesting_pairs_df' stage1_df' (snd (run1 w))) as [R2 _].
  cbn zeta in R1, L1, R2. fold run1 in R1, L1. fold run2 in R2.
  fold matches1 in R1, L1. fold matches2 in R2.
  assert (E2 : records (stage3_matched_transactions (snd (run2 (snd (run1 w)))))
               = (before ++ matches1 ++ matches2)%list).
  { rewrite R2, records_append_all, R1, records_append_all. unfold before.
    now rewrite app_assoc. }
  split; [apply process_stage_1_matched|].
  split; [apply (process_stage_2_eq now disk_ok wallets_df vesting_pairs_df stage1_df w)|].
  split; [apply process_stage_4_eq|].
  split; [now rewrite R1, records_append_all|].
  split; [exact L1|]. split; [exact E2|].
  destruct (process_stage_4_eq (snd (run2 (snd (run1 w))))) as [E _].
  now rewrite E, E2.
Qed.


End PipelineClaims.

(* ================================================================== *)
(** * The stages on the sample session *)
(* ================================================================== *)

Lemma sample_clock_valid : forall i, valid_datetime (Sample.clock i).
Proof.
  intros i. unfold valid_datetime, Sample.clock. cbn -[Nat.modulo].
  repeat split; try lia. apply Nat.mod_upper_bound. lia.
Qed.

(** The scenarios of the specification. *)
Example sample_stage1 :
  fst (process_stage_1 Sample.anchorage Sample.wallets Sample.fresh) = Sample.stage1.
Proof. vm_compute. reflexivity. Qed.

Example sample_stage2_accounts :
  map (fun e => (transactionType e, accountId e, blockchainId e, id e)) Sample.stage2
  = [("withdrawal", "W1", "W1.vestingdistribute.010524", "VT20240109103000000001");
     ("deposit", "W2", "W2.vestingdistribute.010524", "VT20240109103001000002")].
Proof. vm_compute. reflexivity. Qed.

Example sample_stage3_match :
  stage3_matches Sample.stage1 Sample.stage2 Sample.bitwave Sample.wallets Sample.pairs
  = [mkMatchRecord "tx1" 112 100 12].
Proof. vm_compute. reflexivity. Qed.

Example sample_format_06d :
  format_06d 5 = "000005" /\ format_06d 1234567 = "1234567" /\ format_06d (-5) = "-00005".
Proof. vm_compute. auto. Qed.

(** C4. The withdrawal lookup does not keep the rest of the name
    unchanged: for the wallet name "Aptos Team Aptos Core" the code
    searches "Team Core vesting tokens", because [replace] removes every
    occurrence of "Aptos " and not only the prefix its comment speaks of.
    The wallet "Team Aptos Core vesting tokens" (W9), which removing the
    prefix alone would find, is missed: the lookup reports the wallet as
    missing and stage 2 emits no withdrawal entry for the row. *)
Theorem withdrawal_lookup_drops_every_aptos :
  withdrawal_search_name Sample.twice_named = "Team Core vesting tokens"
  /\ first_id_named "Team Aptos Core vesting tokens" Sample.twice_wallets = Some "W9"
  /\ _get_withdrawal_account_id Sample.twice_named Sample.twice_wallets Sample.fresh
     = (None, mkWorld None None 0 None
                      [Error "Aptos Team Aptos Core is missing a vesting tokens wallet"])
  /\ fst (process_stage_2 Sample.clock Sample.disk_up
                          [mkStage1Row Sample.jan5 Sample.twice_named 100 500]
                          Sample.twice_wallets [] Sample.fresh) = [].
Proof. vm_compute. auto. Qed.









(** C10 at the sample session: 0xABC belongs to "Old TeamA" and, later in
    the directory, to "Aptos TeamA"; the group is named "Aptos TeamA". *)
Lemma stage1_duplicate_address_takes_last_name_witness :
  In (mkStage1Row Sample.jan5 "Aptos TeamA" 100 500)
     (fst (process_stage_1 Sample.anchorage Sample.wallets Sample.fresh)).
Proof.
  pose proof (stage1_duplicate_address_takes_last_name
                Sample.anchorage Sample.wallets
                [mkWalletRow "W1" "TeamA vesting tokens" None;
                 mkWalletRow "W2" "TeamA Beneficiary" None;
                 mkWalletRow "W0" "Old TeamA" (Some "0xABC")]
                []
                (mkWalletRow "W3" "Aptos TeamA" (Some "0xABC")) "0xABC" Sample.fresh
                eq_refl eq_refl) as H.
  cbn zeta in H.
  destruct (H ltac:(intros e [])) as (_ & H2).
  apply (H2 (mkAnchorageRow (mkdatetime Sample.jan5 3 4 5 0) "Balance Adjustment"
                            60 300 "0xABC"));
    [left; reflexivity | reflexivity | reflexivity].
Defined.

(* ================================================================== *)
(** * [FileProcessor] *)
(* ================================================================== *)

Lemma existsb_eqb_In c (l : list string) : existsb (String.eqb c) l = true <-> In c l.
Proof.
  rewrite existsb_exists. split.
  - intros (x & Hx & E). apply String.eqb_eq in E. now subst.
  - intros H. exists c. split; [exact H | apply String.eqb_refl].
Qed.

Lemma missing_columns_In required columns c :
  In c (missing_columns required columns) <-> In c required /\ ~ In c columns.
Proof.
  unfold missing_columns.
  rewrite filter_In, negb_true_iff, <- not_true_iff_false, existsb_eqb_In. tauto.
Qed.

Lemma missing_columns_nil required columns :
  missing_columns required columns = [] <-> incl required columns.
Proof.
  split.
  - intros E c Hc. destruct (existsb (String.eqb c) columns) eqn:Ec.
    + now apply existsb_eqb_In.
    + assert (H : In c (missing_columns required columns)).
      { apply missing_columns_In. split; [exact Hc|].
        intros Hin. apply existsb_eqb_In in Hin. congruence. }
      rewrite E in H. destruct H.
  - intros H. destruct (missing_columns required columns) as [|c l] eqn:E; [reflexivity|].
    assert (Hc : In c (missing_columns required columns)) by (rewrite E; now left).
    apply missing_columns_In in Hc. destruct Hc as [Hr Hn]. elim Hn. now apply H.
Qed.

(** The four validators have the same shape. *)
Ltac validator_shape :=
  intros columns w;
  split; [|split; [|split]];
  [ split;
    [ intros H; apply missing_columns_nil;
      match goal with
      | H : fst (?v columns w) = true |- _ => unfold v in H
      end;
      cbn zeta in H;
      match goal with
      | H : fst (match ?m with _ => _ end w) = true |- _ =>
          destruct m; [reflexivity | discriminate H]
      end
    | intros H; apply missing_columns_nil in H;
      match goal with |- fst (?v columns w) = true => unfold v end;
      cbn zeta; now rewrite H ]
  | intros H; apply missing_columns_nil in H;
    match goal with |- ?v columns w = _ => unfold v end;
    cbn zeta; now rewrite H
  | intros H;
    let E := fresh "E" in
    match goal with
    | |- missing_columns ?r columns <> [] /\ _ =>
        destruct (missing_columns r columns) eqn:E;
        [ elim H; now apply missing_columns_nil | ]
    end;
    split; [discriminate|];
    match goal with |- ?v columns w = _ => unfold v end;
    cbn zeta; rewrite E; reflexivity
  | intros c; apply missing_columns_In ].

(** X1. Each of the four validators accepts a table exactly when every
    required column is among its columns (their order and any further
    column do not matter), and then reports nothing; otherwise it returns
    false and reports one error: its heading followed by the missing
    required columns, in the order of the required list, separated by
    ", ". *)
Theorem validators_accept_iff_columns_present :
  validator_spec validate_anchorage_file anchorage_required_columns
                 "Missing required columns: "
  /\ validator_spec validate_wallets_list wallets_required_columns
                    "Missing required columns in Wallets List: "
  /\ validator_spec validate_vesting_pairs vesting_pairs_required_columns
                    "Missing required columns in Vesting Wallet Pairs: "
  /\ validator_spec validate_bitwave_file bitwave_required_columns
                    "Missing required columns in Bitwave Export: ".
Proof.
  split; [|split; [|split]]; unfold validator_spec; validator_shape.
Qed.

Lemma in_date_range_iff a b t :
  in_date_range a b t = true
  <-> (timestamp_value a <= timestamp_value t <= timestamp_value b)%Z.
Proof. unfold in_date_range. rewrite andb_true_iff, !Z.leb_le. tauto. Qed.

(** X2. [filter_date_range] keeps, in their order, exactly the rows whose
    date lies between the two ends, both included.  Filtering twice keeps
    the rows of both ranges, in whichever order the two filters run;
    filtering again by the same range changes nothing, and a range whose
    end precedes its start keeps no row. *)
Theorem filter_date_range_keeps_rows_in_range
        (A : Type) (df : list A) (date_column : A -> datetime)
        (a b c d : datetime) :
  (forall r, In r (filter_date_range df date_column a b)
             <-> In r df
                 /\ (timestamp_value a <= timestamp_value (date_column r)
                     <= timestamp_value b)%Z)
  /\ filter_date_range (filter_date_range df date_column a b) date_column c d
     = filter (fun r => in_date_range a b (date_column r)
                        && in_date_range c d (date_column r)) df
  /\ filter_date_range (filter_date_range df date_column a b) date_column c d
     = filter_date_range (filter_date_range df date_column c d) date_column a b
  /\ filter_date_range (filter_date_range df date_column a b) date_column a b
     = filter_date_range df date_column a b
  /\ ((timestamp_value b < timestamp_value a)%Z ->
      filter_date_range df date_column a b = []).
Proof.
  unfold filter_date_range. split; [|split; [|split; [|split]]].
  - intros r. now rewrite filter_In, in_date_range_iff.
  - apply filter_filter.
  - rewrite !filter_filter. apply filter_ext. intros r. apply andb_comm.
  - rewrite filter_filter. apply filter_ext. intros r.
    now destruct (in_date_range a b (date_column r)).
  - intros H. apply filter_all_false. intros r _.
    destruct (in_date_range a b (date_column r)) eqn:E; [|reflexivity].
    apply in_date_range_iff in E. lia.
Qed.

Lemma timestamp_value_split t :
  timestamp_value t = (toordinal (dt_date t) * ns_per_day + time_of_day t)%Z.
Proof. unfold timestamp_value, time_of_day. lia. Qed.

Lemma time_of_day_bounds t :
  valid_time t -> (0 <= time_of_day t < ns_per_day)%Z.
Proof.
  unfold valid_time, time_of_day, ns_per_day, ns_per_second.
  intros (Hh & Hm & Hs & Hn). lia.
Qed.

(** X3. The date window of stage 3, day by day: a transaction with a valid
    time of day is in the window of the date [d] exactly when it falls on
    [d] itself after midnight, on one of the nine following days, or at
    midnight sharp of the tenth day after [d]. *)
Theorem stage3_window_days (d : date) (t : BitwaveRow) :
  valid_time (bw_dateTime t) ->
  in_window d t = true
  <-> (toordinal (dt_date (bw_dateTime t)) = toordinal d
       /\ (0 < time_of_day (bw_dateTime t))%Z)
      \/ (toordinal d < toordinal (dt_date (bw_dateTime t)) < toordinal d + 10)%Z
      \/ (toordinal (dt_date (bw_dateTime t)) = toordinal d + 10
          /\ time_of_day (bw_dateTime t) = 0)%Z.
Proof.
  intros Hv. pose proof (time_of_day_bounds _ Hv) as Hb.
  unfold in_window, plus_days.
  rewrite andb_true_iff, Z.ltb_lt, Z.leb_le.
  rewrite (timestamp_value_split (bw_dateTime t)), (timestamp_value_split (midnight d)).
  change (time_of_day (midnight d)) with 0%Z.
  change (dt_date (midnight d)) with d.
  unfold ns_per_day, ns_per_second in *. lia.
Qed.

(* ================================================================== *)
(** * The id generator across calls and sessions *)
(* ================================================================== *)

Section IdGeneratorSessions.
Variable now : nat -> datetime.
Variable disk_ok : nat -> bool.

(** X4. Asking for [a + b] ids at once is the same as asking for [a] ids
    and then for [b]: the same ids in the same order, and the same counter,
    counter file and session afterwards. *)
Theorem get_multiple_ids_in_two_calls (a b : nat) (w : World) :
  get_multiple_ids now disk_ok (a + b) w
  = (let (ids1, w1) := get_multiple_ids now disk_ok a w in
     let (ids2, w2) := get_multiple_ids now disk_ok b w1 in
     ((ids1 ++ ids2)%list, w2)).
Proof.
  revert w. induction a as [|a IH]; intros w.
  - cbn [Nat.add get_multiple_ids ret].
    now destruct (get_multiple_ids now disk_ok b w).
  - cbn [Nat.add get_multiple_ids]. unfold bind.
    destruct (get_next_id now disk_ok w) as [i w1].
    rewrite IH.
    destruct (get_multiple_ids now disk_ok a w1) as [ids1 w2].
    unfold ret.
    destruct (get_multiple_ids now disk_ok b w2) as [ids2 w3].
    reflexivity.
Qed.

Lemma ids_of_session (w : World) (count : nat) :
  let r := get_multiple_ids now disk_ok count (snd (get_id_generator w)) in
  fst r = map (nth_id now w) (seq 0 count)
  /\ id_counter (snd r) = Some (loaded_counter w + Z.of_nat count)%Z
  /\ issued (snd r) = issued w + count
  /\ (0 < count -> disk_ok (issued w + count - 1) = true ->
      counter_file (snd r) = Some (loaded_counter w + Z.of_nat count)%Z)
  /\ ((forall i, i < count -> disk_ok (issued w + i) = false) ->
      counter_file (snd r) = counter_file w).
Proof.
  cbn zeta. unfold get_id_generator. rewrite load_counter_eq. cbn [snd].
  destruct (get_multiple_ids_eq now disk_ok count
              (set_id_counter (Some (loaded_counter w)) w) (loaded_counter w) eq_refl)
    as (E1 & E2 & E3 & _ & _ & E6 & E7).
  cbn [issued set_id_counter counter_file] in *. auto.
Qed.

Lemma nth_id_shift (w w' : World) (n : nat) :
  issued w' = issued w + n ->
  loaded_counter w' = (loaded_counter w + Z.of_nat n)%Z ->
  forall j, nth_id now w' j = nth_id now w (n + j).
Proof.
  intros Hi Hc j. unfold nth_id. rewrite Hi, Hc.
  replace (issued w + n + j) with (issued w + (n + j)) by lia.
  replace (loaded_counter w + Z.of_nat n + Z.of_nat j)%Z
    with (loaded_counter w + Z.of_nat (n + j))%Z by lia.
  reflexivity.
Qed.

Lemma nth_ids_nodup (w : World) (count : nat) :
  (forall i, valid_datetime (now i)) ->
  NoDup (map (nth_id now w) (seq 0 count)).
Proof. intros Hv. unfold nth_id. now apply unique_ids_nodup. Qed.

Lemma map_seq_shift {B} (f : nat -> B) (n m : nat) :
  map f (seq n m) = map (fun j => f (n + j)) (seq 0 m).
Proof.
  revert f. induction n as [|n IH]; intros f; [reflexivity|].
  rewrite <- seq_shift, map_map. apply (IH (fun x => f (S x))).
Qed.

(** X5. Ids are not repeated across sessions when the counter reaches the
    disk: if the write after the last issuance of a session succeeded, the
    next session starts from the counter the first one ended with, and
    the ids of the two sessions are pairwise distinct. *)
Theorem ids_unique_across_sessions (w : World) (n m : nat) :
  (forall i, valid_datetime (now i)) ->
  0 < n ->
  disk_ok (issued w + n - 1) = true ->
  let first := get_multiple_ids now disk_ok n (snd (get_id_generator w)) in
  let w' := new_session (snd first) in
  let second := get_multiple_ids now disk_ok m (snd (get_id_generator w')) in
  loaded_counter w' = (loaded_counter w + Z.of_nat n)%Z
  /\ NoDup (fst first ++ fst second).
Proof.
  intros Hv Hn Hd first w' second.
  destruct (ids_of_session w n) as (E1 & _ & E3 & E4 & _).
  fold first in E1, E3, E4. specialize (E4 Hn Hd).
  assert (Hc : loaded_counter w' = (loaded_counter w + Z.of_nat n)%Z).
  { unfold w', new_session, loaded_counter at 1. cbn. now rewrite E4. }
  split; [exact Hc|].
  destruct (ids_of_session w' m) as (F1 & _). fold second in F1.
  rewrite E1, F1.
  rewrite (map_ext _ _ (nth_id_shift w w' n E3 Hc)).
  rewrite <- (map_seq_shift (nth_id now w) n m), <- map_app, <- seq_app.
  now apply nth_ids_nodup.
Qed.


End IdGeneratorSessions.

(* ================================================================== *)
(** * Stage 1 as a whole *)
(* ================================================================== *)






Lemma last_name_for_none wallets_df addr :
  (forall e, In e wallets_df -> Addresses e <> Some addr) ->
  last_name_for wallets_df addr = None.
Proof.
  intros H. unfold last_name_for. rewrite filter_all_false; [reflexivity|].
  intros e He. apply in_rev in He.
  destruct (addr_eqb (Addresses e) (Some addr)) eqn:E; [|reflexivity].
  apply addr_eqb_eq in E. now apply H in He.
Qed.

(** X8. An address the wallet directory does not know passes through: for
    every Balance Adjustment row whose destination address is the address
    of no directory entry (entries without address count for nothing, and
    the directory may be empty), the output holds the row of its (date,
    address) pair with the raw address as Wallet Name. *)
Theorem stage1_unknown_address_kept
        (anchorage_df : list AnchorageRow) (wallets_df : list WalletRow) (w : World)
        (r : AnchorageRow) :
  In r anchorage_df ->
  Type_ r = "Balance Adjustment" ->
  (forall e, In e wallets_df -> Addresses e <> Some (Destination_Address r)) ->
  let ba := balance_adjustments anchorage_df in
  In (mkStage1Row (dt_date (End_Time r)) (Destination_Address r)
        (sum_Z (map Asset_Quantity_Before_Fee (rows_of_key (row_key r) ba)))
        (sum_Z (map Value_USD (rows_of_key (row_key r) ba))))
     (fst (process_stage_1 anchorage_df wallets_df w)).
Proof.
  intros Hin Ht Hw ba.
  assert (Hba : In r ba) by (apply balance_adjustments_In; auto).
  assert (Hne : balance_adjustments anchorage_df <> [])
    by (intros E; unfold ba in Hba; rewrite E in Hba; exact Hba).
  rewrite (process_stage_1_rows _ _ _ Hne). cbn [fst].
  apply (sort_by_in stage1_key). apply in_map_iff.
  exists (row_key r). split.
  - unfold stage1_spec_row, row_key; cbn [fst snd].
    now rewrite (last_name_for_none _ _ Hw).
  - apply groupby_sum_keys. exists r. auto.
Qed.








(* ================================================================== *)
(** * The account lookups of stage 2 *)
(* ================================================================== *)

Lemma filter_first {A} (p : A -> bool) l before x after :
  l = (before ++ x :: after)%list -> p x = true ->
  (forall y, In y before -> p y = false) ->
  filter p l = x :: filter p after.
Proof.
  intros -> Hx Hb. rewrite filter_app, (filter_all_false p before Hb).
  cbn [app filter]. now rewrite Hx.
Qed.

(** X10. The deposit lookup follows the first vesting pair of the wallet
    and the first directory entry of its beneficiary, and says which step
    failed.  Without a pair whose originating wallet is the name, it
    returns nothing and reports the name.  Otherwise only the first such
    pair counts: when no directory entry carries its beneficiary's name,
    the lookup returns nothing and reports the beneficiary, whatever
    later pairs say; else it returns the ID of the first entry of that
    name and reports nothing. *)
Theorem deposit_lookup_follows_first_pair
        (wallet_name : string) (wallets_df : list WalletRow)
        (vesting_pairs_df : list VestingPair) (w : World) :
  let r := _get_deposit_account_id wallet_name wallets_df vesting_pairs_df w in
  let reported text :=
    mkWorld (id_counter w) (counter_file w) (issued w) (stage3_matched_transactions w)
            (messages w ++ [Error text]) in
  ((forall p, In p vesting_pairs_df -> Originating_Wallet p <> wallet_name) ->
   r = (None, reported ("No Originating Wallet Match in the Vesting Wallet Pairs table for "
                        ++ wallet_name)))
  /\ forall before p after,
      vesting_pairs_df = (before ++ p :: after)%list ->
      Originating_Wallet p = wallet_name ->
      (forall q, In q before -> Originating_Wallet q <> wallet_name) ->
      ((forall e, In e wallets_df -> Name e <> Beneficiary_Wallet p) ->
       r = (None, reported ("No Beneficiary Wallet Match in the Wallets list for "
                            ++ Beneficiary_Wallet p)))
      /\ forall wb e wa,
          wallets_df = (wb ++ e :: wa)%list ->
          Name e = Beneficiary_Wallet p ->
          (forall x, In x wb -> Name x <> Beneficiary_Wallet p) ->
          r = (Some (ID e), w).
Proof.
  cbn zeta. unfold _get_deposit_account_id. split.
  - intros H. rewrite filter_all_false; [reflexivity|].
    intros p Hp. apply String.eqb_neq. now apply H.
  - intros before p after Hl Hp Hb.
    rewrite (filter_first _ _ before p after Hl)
      by (try (now apply String.eqb_eq);
          intros q Hq; apply String.eqb_neq; now apply Hb).
    split.
    + intros H. rewrite filter_all_false; [reflexivity|].
      intros e He. apply String.eqb_neq. now apply H.
    + intros wb e wa Hw He Hwb.
      rewrite (filter_first _ _ wb e wa Hw)
        by (try (now apply String.eqb_eq);
            intros x Hx; apply String.eqb_neq; now apply Hwb).
      reflexivity.
Qed.

Lemma prefix_split a : forall s, String.prefix a s = true -> exists b, s = a ++ b.
Proof.
  induction a as [|c a IH]; intros s H.
  - now exists s.
  - destruct s as [|c' s]; [discriminate|]. cbn in H.
    destruct (ascii_dec c c') as [<-|]; [|discriminate].
    destruct (IH s H) as (b & ->). now exists b.
Qed.

(** [replace] leaves a string without occurrence of [old] as it is. *)
Lemma replace_from_absent old new s :
  (forall a b, s <> a ++ old ++ b) -> replace_from old new 0 s = s.
Proof.
  induction s as [|c s IH]; intros H; [reflexivity|].
  cbn [replace_from].
  destruct (String.prefix old (String c s)) eqn:E.
  - apply prefix_split in E. destruct E as (b & E). elim (H "" b). exact E.
  - f_equal. apply IH. intros a b Hs. apply (H (String c a) b). cbn. now rewrite Hs.
Qed.

(** X11. Where the withdrawal lookup does what its comment says: for a
    wallet name made of the prefix "Aptos " and a rest in which "Aptos "
    does not occur, the vesting wallet is searched under the rest followed
    by " vesting tokens". *)
Theorem withdrawal_name_with_single_prefix (rest : string) :
  (forall a b, rest <> a ++ "Aptos " ++ b) ->
  withdrawal_search_name ("Aptos " ++ rest) = rest ++ " vesting tokens".
Proof.
  intros H. unfold withdrawal_search_name, startswith, str_replace.
  cbn [append String.prefix]. cbn.
  assert (P : String.prefix "" rest = true) by (destruct rest; reflexivity).
  now rewrite P, (replace_from_absent "Aptos " "" rest H).
Qed.

(* ================================================================== *)
(** * Stage 2 as a whole *)
(* ================================================================== *)

Lemma withdrawal_lookup_messages wallet_name wallets_df w :
  messages (snd (_get_withdrawal_account_id wallet_name wallets_df w))
  = (messages w ++ withdrawal_messages wallet_name wallets_df)%list.
Proof.
  unfold _get_withdrawal_account_id, withdrawal_messages, withdrawal_account,
    first_id_named.
  destruct (filter _ wallets_df); cbn; [reflexivity | now rewrite app_nil_r].
Qed.

Lemma deposit_lookup_messages wallet_name wallets_df vesting_pairs_df w :
  messages (snd (_get_deposit_account_id wallet_name wallets_df vesting_pairs_df w))
  = (messages w ++ deposit_messages wallet_name wallets_df vesting_pairs_df)%list.
Proof.
  unfold _get_deposit_account_id, deposit_messages, first_id_named.
  destruct (filter _ vesting_pairs_df) as [|p ps]; [reflexivity|].
  destruct (filter _ wallets_df); cbn; [reflexivity | now rewrite app_nil_r].
Qed.

Lemma find_over_app {A} (p : A -> bool) l1 l2 :
  find p (l1 ++ l2) = match find p l1 with Some x => Some x | None => find p l2 end.
Proof.
  induction l1 as [|x l1 IH]; cbn; [reflexivity|]. now destruct (p x).
Qed.

Lemma first_id_named_in name wallets_df i :
  first_id_named name wallets_df = Some i ->
  exists e, In e wallets_df /\ Name e = name /\ ID e = i.
Proof.
  unfold first_id_named.
  destruct (filter (fun w => Name w =? name) wallets_df) as [|e l] eqn:E; [discriminate|].
  intros H. injection H as <-.
  assert (He : In e (filter (fun w => Name w =? name) wallets_df)) by (rewrite E; now left).
  apply filter_In in He. destruct He as [He Hn]. apply String.eqb_eq in Hn. eauto.
Qed.

Lemma truthy_nonempty a : a <> "" -> truthy a = true.
Proof.
  intros H. unfold truthy. apply negb_true_iff. now apply String.eqb_neq.
Qed.

Section Stage2Whole.
Variable now : nat -> datetime.
Variable disk_ok : nat -> bool.
Variable wallets_df : list WalletRow.
Variable vesting_pairs_df : list VestingPair.

Lemma stage2_body_messages row w :
  messages (snd (stage2_body now disk_ok wallets_df vesting_pairs_df row w))
  = (messages w
     ++ withdrawal_messages (Wallet_Name row) wallets_df
     ++ deposit_messages (Wallet_Name row) wallets_df vesting_pairs_df)%list.
Proof.
  unfold stage2_body, bind. rewrite (next_id_eq now disk_ok w).
  set (w1 := mkWorld _ _ _ _ _). rewrite (next_id_eq now disk_ok w1).
  set (w2 := mkWorld _ _ _ _ _).
  pose proof (withdrawal_lookup_messages (Wallet_Name row) wallets_df w2) as M1.
  destruct (_get_withdrawal_account_id (Wallet_Name row) wallets_df w2) as [wa w3].
  pose proof (deposit_lookup_messages (Wallet_Name row) wallets_df vesting_pairs_df w3)
    as M2.
  destruct (_get_deposit_account_id (Wallet_Name row) wallets_df vesting_pairs_df w3)
    as [da w4].
  cbn [fst snd ret] in *. rewrite M2, M1. subst w2 w1. cbn [messages].
  now rewrite app_assoc.
Qed.

Lemma stage2_loop_messages rows : forall w,
  messages (snd (for_each (stage2_body now disk_ok wallets_df vesting_pairs_df) rows w))
  = (messages w ++ stage2_messages wallets_df vesting_pairs_df rows)%list.
Proof.
  induction rows as [|row rows IH]; intros w.
  - cbn. now rewrite app_nil_r.
  - cbn [for_each]. unfold bind.
    pose proof (stage2_body_messages row w) as B.
    destruct (stage2_body now disk_ok wallets_df vesting_pairs_df row w) as [out w1].
    specialize (IH w1). destruct (for_each _ rows w1) as [rest w2].
    cbn [fst snd ret] in *. rewrite IH, B. unfold stage2_messages.
    cbn [flat_map]. now rewrite <- !app_assoc.
Qed.

(** Each half of a row is emitted or reported, when ids are not empty. *)
Lemma stage2_row_halves row wid did :
  (forall e, In e wallets_df -> ID e <> "") ->
  List.length (stage2_rows wallets_df vesting_pairs_df row wid did)
  + List.length (withdrawal_messages (Wallet_Name row) wallets_df
                 ++ deposit_messages (Wallet_Name row) wallets_df vesting_pairs_df)
  = 2.
Proof.
  intros Hid.
  assert (T : forall name i, first_id_named name wallets_df = Some i -> truthy i = true).
  { intros name i H. apply first_id_named_in in H. destruct H as (e & He & _ & <-).
    apply truthy_nonempty. now apply Hid. }
  unfold stage2_rows, entry_rows, withdrawal_messages, deposit_messages,
    withdrawal_account, deposit_account.
  rewrite !length_app.
  destruct (first_id_named (withdrawal_search_name (Wallet_Name row)) wallets_df)
    as [a|] eqn:Ea; [rewrite (T _ _ Ea)|];
    (destruct (filter (fun p => Originating_Wallet p =? Wallet_Name row) vesting_pairs_df)
       as [|p ps]; [reflexivity|];
     destruct (first_id_named (Beneficiary_Wallet p) wallets_df) as [b|] eqn:Eb;
     [rewrite (T _ _ Eb)|]; reflexivity).
Qed.

Lemma stage2_output_halves rows : forall k c,
  (forall e, In e wallets_df -> ID e <> "") ->
  List.length (stage2_output now wallets_df vesting_pairs_df k c rows)
  + List.length (stage2_messages wallets_df vesting_pairs_df rows)
  = 2 * List.length rows.
Proof.
  induction rows as [|row rows IH]; intros k c Hid; [reflexivity|].
  cbn [stage2_output List.length]. unfold stage2_messages. cbn [flat_map].
  fold (stage2_messages wallets_df vesting_pairs_df rows).
  rewrite (length_app (stage2_rows _ _ _ _ _)).
  rewrite (length_app (withdrawal_messages _ _ ++ deposit_messages _ _ _)).
  pose proof (stage2_row_halves row (unique_id (strftime_YmdHMS (now k)) c)
                (unique_id (strftime_YmdHMS (now (S k))) (c + 1)%Z) Hid) as R.
  specialize (IH (S (S k)) (c + 2)%Z Hid). lia.
Qed.

(** X12. Stage 2 accounts for both halves of every row: on a non-empty
    stage-1 table and a wallet directory without empty ID, the messages it
    adds are one error for every failed lookup, in the order of the rows,
    and the number of entries it emits plus the number of these errors is
    twice the number of rows. *)
Theorem stage2_every_half_emitted_or_reported (stage1_df : list Stage1Row) (w : World) :
  stage1_df <> [] ->
  (forall e, In e wallets_df -> ID e <> "") ->
  let r := process_stage_2 now disk_ok stage1_df wallets_df vesting_pairs_df w in
  let errors := stage2_messages wallets_df vesting_pairs_df stage1_df in
  messages (snd r) = (messages w ++ errors)%list
  /\ List.length (fst r) + List.length errors = 2 * List.length stage1_df
  /\ forall m, In m errors -> exists text, m = Error text.
Proof.
  intros Hne Hid r errors. subst r.
  destruct (process_stage_2_eq now disk_ok wallets_df vesting_pairs_df stage1_df w)
    as (E & _). cbn zeta in E.
  split; [|split].
  - unfold process_stage_2. destruct stage1_df as [|row rows]; [contradiction|].
    apply stage2_loop_messages.
  - rewrite E. now apply stage2_output_halves.
  - intros m Hm. unfold errors, stage2_messages in Hm. apply in_flat_map in Hm.
    destruct Hm as (row & _ & Hm). apply in_app_or in Hm.
    unfold withdrawal_messages, deposit_messages in Hm.
    destruct Hm as [Hm | Hm].
    + destruct (withdrawal_account (Wallet_Name row) wallets_df); [destruct Hm|].
      destruct Hm as [<- | []]. eauto.
    + destruct (filter _ vesting_pairs_df) as [|p ps].
      * destruct Hm as [<- | []]. eauto.
      * destruct (first_id_named (Beneficiary_Wallet p) wallets_df); [destruct Hm|].
        destruct Hm as [<- | []]. eauto.
Qed.

(** The ids of the loop of stage 2 are among the [2n] ids it draws. *)
Lemma stage2_output_ids rows k c x :
  In x (map id (stage2_output now wallets_df vesting_pairs_df k c rows)) ->
  exists i, i < 2 * List.length rows
            /\ x = unique_id (strftime_YmdHMS (now (k + i))) (c + Z.of_nat i)%Z.
Proof.
  intros H. apply in_map_iff in H. destruct H as (e & <- & He).
  apply (stage2_output_in now wallets_df vesting_pairs_df) in He.
  destruct He as (j & row & Hj & He).
  assert (Hlt : j < List.length rows) by (apply nth_error_Some; congruence).
  apply stage2_rows_in in He. destruct He as [(-> & _) | (-> & _)].
  - exists (2 * j). split; [lia|].
    replace (c + Z.of_nat (2 * j))%Z with (c + 2 * Z.of_nat j)%Z by lia. reflexivity.
  - exists (2 * j + 1). split; [lia|].
    replace (k + (2 * j + 1)) with (k + 2 * j + 1) by lia.
    replace (c + Z.of_nat (2 * j + 1))%Z with (c + 2 * Z.of_nat j + 1)%Z by lia.
    reflexivity.
Qed.

Lemma stage2_rows_ids row wid did :
  let l := map id (stage2_rows wallets_df vesting_pairs_df row wid did) in
  l = [] \/ l = [wid] \/ l = [did] \/ l = [wid; did].
Proof.
  cbn zeta. unfold stage2_rows, entry_rows.
  destruct (withdrawal_account (Wallet_Name row) wallets_df) as [a|];
    [destruct (truthy a)|];
    (destruct (deposit_account (Wallet_Name row) wallets_df vesting_pairs_df) as [b|];
     [destruct (truthy b)|]);
    unfold vesting_row; cbn [map app id]; auto.
Qed.

Lemma stage2_output_nodup rows : forall k c,
  (forall i, valid_datetime (now i)) ->
  NoDup (map id (stage2_output now wallets_df vesting_pairs_df k c rows)).
Proof.
  induction rows as [|row rows IH]; intros k c Hv; [constructor|].
  cbn [stage2_output]. rewrite map_app. apply NoDup_app.
  - destruct (stage2_rows_ids row (unique_id (strftime_YmdHMS (now k)) c)
                (unique_id (strftime_YmdHMS (now (S k))) (c + 1)%Z))
      as [E | [E | [E | E]]]; rewrite E.
    + constructor.
    + constructor; [intros [] | constructor].
    + constructor; [intros [] | constructor].
    + constructor; [|constructor; [intros [] | constructor]].
      intros [H | []]. apply (unique_id_clock_inj now disk_ok _ _ _ _ Hv) in H. lia.
  - now apply IH.
  - intros x Hx Hr. apply stage2_output_ids in Hr. destruct Hr as (i & _ & ->).
    apply in_map_iff in Hx. destruct Hx as (e & Ee & He).
    apply stage2_rows_in in He.
    destruct He as [(E & _) | (E & _)]; rewrite E in Ee;
      apply (unique_id_clock_inj now disk_ok _ _ _ _ Hv) in Ee; lia.
Qed.

(** X13. Stage 3 finds the baselines stage 2 wrote.  In the output of
    stage 2, the expected amount for the deposit account of a stage-1
    row and its date exists, and is the quantity of the first row of the
    table that has this deposit account and this date (the row itself
    when no earlier row shares them); withdrawal entries never serve as
    baseline. *)
Theorem stage2_baseline_found_by_stage3
        (stage1_df : list Stage1Row) (w : World) (row : Stage1Row) (account_id : string) :
  In row stage1_df ->
  deposit_account (Wallet_Name row) wallets_df vesting_pairs_df = Some account_id ->
  truthy account_id = true ->
  let same (x : Stage1Row) : Prop :=
    deposit_account (Wallet_Name x) wallets_df vesting_pairs_df = Some account_id
    /\ Date x = Date row in
  exists before first after,
    stage1_df = (before ++ first :: after)%list
    /\ same first
    /\ (forall x, In x before -> ~ same x)
    /\ _get_stage2_deposit_amount
         (fst (process_stage_2 now disk_ok stage1_df wallets_df vesting_pairs_df w))
         account_id (Date row)
       = Some (Sum_Quantity first).
Proof.
  intros Hin Ha Ht same.
  destruct (process_stage_2_eq now disk_ok wallets_df vesting_pairs_df stage1_df w)
    as (E & _). cbn zeta in E. rewrite E. clear E.
  generalize (issued w) (loaded_counter w). intros k c. revert k c.
  induction stage1_df as [|x rows IH]; intros k c; [destruct Hin|].
  assert (D : {same x} + {~ same x}).
  { unfold same.
    destruct (deposit_account (Wallet_Name x) wallets_df vesting_pairs_df) as [b|];
      [|right; intros [? _]; discriminate].
    destruct (String.string_dec b account_id) as [->|Nb];
      [|right; intros [Hb _]; congruence].
    destruct (date_eqb (Date x) (Date row)) eqn:Ed.
    - apply date_eqb_eq in Ed. left. auto.
    - right. intros [_ Hd]. apply date_eqb_eq in Hd. congruence. }
  unfold _get_stage2_deposit_amount. cbn [stage2_output].
  rewrite filter_app, find_over_app.
  destruct D as [[Hx Hd] | Nx].
  - exists [], x, rows. split; [reflexivity|]. split; [split; assumption|].
    split; [intros ? []|].
    unfold stage2_rows, entry_rows. rewrite Hx, Ht.
    destruct (withdrawal_account (Wallet_Name x) wallets_df) as [a|];
      [destruct (truthy a)|];
      cbn; rewrite String.eqb_refl; cbn;
      rewrite (proj2 (date_eqb_eq (Date x) (Date row)) Hd); reflexivity.
  - assert (Hin' : In row rows).
    { destruct Hin as [<- | H]; [|exact H]. elim Nx. split; auto. }
    destruct (IH Hin' (S (S k)) (c + 2)%Z) as (before & first & after & El & Hf & Hb & Ef).
    exists (x :: before), first, after.
    split; [cbn; now rewrite El|]. split; [exact Hf|].
    split; [intros y [<- | Hy]; auto|].
    unfold _get_stage2_deposit_amount in Ef.
    assert (N : find (fun r => date_eqb (dt_date (time r)) (Date row))
                     (filter (fun r => (transactionType r =? "deposit")
                                       && (accountId r =? account_id))
                             (stage2_rows wallets_df vesting_pairs_df x
                                (unique_id (strftime_YmdHMS (now k)) c)
                                (unique_id (strftime_YmdHMS (now (S k))) (c + 1)%Z)))
                = None).
    { unfold stage2_rows, entry_rows, same in *.
      destruct (withdrawal_account (Wallet_Name x) wallets_df) as [a|];
        [destruct (truthy a)|];
        (destruct (deposit_account (Wallet_Name x) wallets_df vesting_pairs_df) as [b|];
         [destruct (truthy b)|]); cbn; try reflexivity;
        (destruct (b =? account_id) eqn:Eb; cbn; [|reflexivity]);
        apply String.eqb_eq in Eb; subst b;
        (destruct (date_eqb (Date x) (Date row)) eqn:Ed; [|reflexivity]);
        apply date_eqb_eq in Ed; elim Nx; auto. }
    rewrite N. exact Ef.
Qed.

End Stage2Whole.

(* ================================================================== *)
(** * Stage 3 as a whole *)
(* ================================================================== *)

Lemma nodup_map_inj {A B} (f : A -> B) l x y :
  NoDup (map f l) -> In x l -> In y l -> f x = f y -> x = y.
Proof.
  induction l as [|a l IH]; intros N Hx Hy E; [destruct Hx|].
  inversion N as [|? ? Na N']; subst.
  destruct Hx as [<- | Hx], Hy as [<- | Hy]; auto.
  - elim Na. rewrite E. now apply in_map.
  - elim Na. rewrite <- E. now apply in_map.
Qed.

Lemma filter_head_first {A} (p : A -> bool) l x rest :
  filter p l = x :: rest ->
  exists before after,
    l = (before ++ x :: after)%list /\ p x = true
    /\ forall y, In y before -> p y = false.
Proof.
  intros E. apply find_first. rewrite <- head_filter_find. now rewrite E.
Qed.

(** The display name of an account that came out of the directory is the
    name of the first entry with that ID. *)
Lemma wallet_name_of_known_id name wallets_df account_id :
  first_id_named name wallets_df = Some account_id ->
  exists wb e wa,
    wallets_df = (wb ++ e :: wa)%list /\ ID e = account_id
    /\ (forall x, In x wb -> ID x <> account_id)
    /\ _get_wallet_name_from_id account_id wallets_df = Name e.
Proof.
  intros H. apply first_id_named_in in H. destruct H as (m & Hm & _ & Hid).
  unfold _get_wallet_name_from_id.
  destruct (filter (fun w => ID w =? account_id) wallets_df) as [|e rest] eqn:E.
  - assert (Hin : In m (filter (fun w => ID w =? account_id) wallets_df))
      by (apply filter_In; split; [exact Hm | now apply String.eqb_eq]).
    rewrite E in Hin. destruct Hin.
  - destruct (filter_head_first _ _ _ _ E) as (wb & wa & Hl & He & Hb).
    exists wb, e, wa. split; [exact Hl|]. split; [now apply String.eqb_eq|].
    split; [|reflexivity]. intros x Hx. apply String.eqb_neq. now apply Hb.
Qed.

Lemma deposit_account_pair wallet_name wallets_df vesting_pairs_df account_id :
  deposit_account wallet_name wallets_df vesting_pairs_df = Some account_id ->
  exists before p after,
    vesting_pairs_df = (before ++ p :: after)%list
    /\ Originating_Wallet p = wallet_name
    /\ (forall q, In q before -> Originating_Wallet q <> wallet_name)
    /\ first_id_named (Beneficiary_Wallet p) wallets_df = Some account_id.
Proof.
  unfold deposit_account.
  destruct (filter (fun p => Originating_Wallet p =? wallet_name) vesting_pairs_df)
    as [|p ps] eqn:E; [discriminate|].
  intros H. destruct (filter_head_first _ _ _ _ E) as (before & after & Hl & Hp & Hb).
  exists before, p, after. split; [exact Hl|]. split; [now apply String.eqb_eq|].
  split; [|exact H]. intros q Hq. apply String.eqb_neq. now apply Hb.
Qed.

Lemma stage3_row_hit_account stage2_df bitwave_df wallets_df vesting_pairs_df row
      account_id expected t :
  stage3_row_hit stage2_df bitwave_df wallets_df vesting_pairs_df row
  = Some (account_id, expected, t) ->
  deposit_account (Wallet_Name row) wallets_df vesting_pairs_df = Some account_id
  /\ truthy account_id = true
  /\ _get_stage2_deposit_amount stage2_df account_id (Date row) = Some expected
  /\ reward_match bitwave_df account_id (Date row) expected = Some t.
Proof.
  unfold stage3_row_hit.
  destruct (deposit_account (Wallet_Name row) wallets_df vesting_pairs_df) as [a|];
    [|discriminate].
  destruct (truthy a) eqn:Et; [|discriminate]. cbn [negb].
  destruct (_get_stage2_deposit_amount stage2_df a (Date row)) as [e|] eqn:Ee;
    [|discriminate].
  destruct (reward_match bitwave_df a (Date row) e) as [t'|] eqn:Em; [|discriminate].
  intros H. injection H as -> -> ->. repeat split; auto.
Qed.

Section Stage3Whole.
Variable now : nat -> datetime.
Variable disk_ok : nat -> bool.
Variable stage2_df : list LedgerRow.
Variable bitwave_df : list BitwaveRow.
Variable wallets_df : list WalletRow.
Variable vesting_pairs_df : list VestingPair.

Lemma stage3_loop_eq rows : forall w,
  let r := for_each (stage3_body now disk_ok stage2_df bitwave_df wallets_df
                                 vesting_pairs_df) rows w in
  let hits := stage3_hits rows stage2_df bitwave_df wallets_df vesting_pairs_df in
  fst r = stage3_rows now wallets_df (issued w) (loaded_counter w) hits
  /\ issued (snd r) = issued w + List.length hits
  /\ loaded_counter (snd r) = (loaded_counter w + Z.of_nat (List.length hits))%Z.
Proof.
  induction rows as [|row rows IH]; intros w; cbn zeta.
  - cbn. split; [reflexivity|]. split; lia.
  - cbn [for_each]. unfold bind, stage3_hits. cbn [flat_map].
    fold (stage3_hits rows stage2_df bitwave_df wallets_df vesting_pairs_df).
    pose proof (stage3_body_eq now disk_ok stage2_df bitwave_df wallets_df
                               vesting_pairs_df row w) as B.
    cbn zeta in B.
    destruct (stage3_body now disk_ok stage2_df bitwave_df wallets_df vesting_pairs_df
                          row w) as [out w1].
    specialize (IH w1). cbn zeta in IH.
    destruct (for_each _ rows w1) as [rest w2]. cbn [fst snd ret] in *.
    destruct IH as (I1 & I2 & I3).
    destruct (stage3_row_hit stage2_df bitwave_df wallets_df vesting_pairs_df row)
      as [[[a e] t]|].
    + destruct B as (B1 & _ & B3 & B4).
      rewrite (loaded_counter_some _ _ B3), B4 in *.
      cbn [app List.length stage3_rows].
      split; [now rewrite B1, I1|].
      rewrite !length_app. cbn [List.length]. split; lia.
    + destruct B as (B1 & F1 & F2 & F3 & _).
      assert (Hc : loaded_counter w1 = loaded_counter w)
        by (unfold loaded_counter; now rewrite F1, F2).
      rewrite Hc, F3 in *. split; [now rewrite B1, I1|].
      rewrite !length_app. cbn [List.length]. split; lia.
Qed.

Lemma process_stage_3_eq stage1_df w :
  let r := process_stage_3 now disk_ok stage1_df stage2_df bitwave_df wallets_df
                           vesting_pairs_df w in
  let hits := stage3_hits stage1_df stage2_df bitwave_df wallets_df vesting_pairs_df in
  let rows := stage3_rows now wallets_df (issued w) (loaded_counter w) hits in
  fst (fst r) = map fst rows /\ snd (fst r) = map snd rows
  /\ issued (snd r) = issued w + List.length hits
  /\ loaded_counter (snd r) = (loaded_counter w + Z.of_nat (List.length hits))%Z.
Proof.
  cbn zeta. unfold process_stage_3.
  destruct stage1_df as [|row0 rows0].
  - cbn. unfold loaded_counter. cbn. repeat split; lia.
  - unfold bind, ret.
    destruct (stage3_loop_eq (row0 :: rows0) w) as (E1 & E2 & E3).
    destruct (for_each _ (row0 :: rows0) w) as [out w1]. cbn [fst snd] in *.
    now rewrite E1.
Qed.

Lemma stage3_rows_length k c hits :
  List.length (stage3_rows now wallets_df k c hits) = List.length hits.
Proof.
  revert k c. induction hits as [|[row [[a e] t]] hits IH]; intros k c; [reflexivity|].
  cbn [stage3_rows List.length]. now rewrite IH.
Qed.

Lemma stage3_rows_ids hits : forall k c,
  map (fun p => id (fst p)) (stage3_rows now wallets_df k c hits)
  = map (fun i => unique_id (strftime_YmdHMS (now (k + i))) (c + Z.of_nat i)%Z)
        (seq 0 (List.length hits)).
Proof.
  induction hits as [|[row [[a e] t]] hits IH]; intros k c; [reflexivity|].
  cbn [stage3_rows List.length seq map fst]. unfold reward_row at 1. cbn [id].
  rewrite Nat.add_0_r, Z.add_0_r. f_equal.
  rewrite IH, <- seq_shift, map_map. apply map_ext. intros i.
  replace (S k + i) with (k + S i) by lia.
  replace (c + 1 + Z.of_nat i)%Z with (c + Z.of_nat (S i))%Z by lia.
  reflexivity.
Qed.

Lemma stage3_rows_amounts hits : forall k c,
  map (fun p => amount (fst p)) (stage3_rows now wallets_df k c hits)
  = map (fun h => (bw_amount (snd (snd h)) - snd (fst (snd h)))%Z) hits
  /\ map (fun p => disp_Amount (snd p)) (stage3_rows now wallets_df k c hits)
     = map (fun h => (bw_amount (snd (snd h)) - snd (fst (snd h)))%Z) hits
  /\ map (fun p => dt_date (time (fst p))) (stage3_rows now wallets_df k c hits)
     = map (fun h => Date (fst h)) hits
  /\ map (fun p => disp_Date (snd p)) (stage3_rows now wallets_df k c hits)
     = map (fun h => Date (fst h)) hits.
Proof.
  induction hits as [|[row [[a e] t]] hits IH]; intros k c; [repeat split|].
  cbn [stage3_rows map fst snd]. unfold reward_row at 1 2.
  cbn [amount time disp_Amount disp_Date noon dt_date].
  destruct (IH (S k) (c + 1)%Z) as (-> & -> & -> & ->). repeat split.
Qed.

Lemma stage3_matches_of_hits stage1_df :
  stage3_matches stage1_df stage2_df bitwave_df wallets_df vesting_pairs_df
  = map (fun h => mkMatchRecord (bw_id (snd (snd h))) (bw_amount (snd (snd h)))
                                (snd (fst (snd h)))
                                (bw_amount (snd (snd h)) - snd (fst (snd h)))%Z)
        (stage3_hits stage1_df stage2_df bitwave_df wallets_df vesting_pairs_df).
Proof.
  unfold stage3_matches, stage3_hits.
  induction stage1_df as [|row rows IH]; [reflexivity|].
  cbn [flat_map]. rewrite map_app, IH. f_equal.
  unfold stage3_row_matches.
  now destruct (stage3_row_hit stage2_df bitwave_df wallets_df vesting_pairs_df row)
    as [[[a e] t]|].
Qed.

Lemma stage3_hits_positive stage1_df h :
  In h (stage3_hits stage1_df stage2_df bitwave_df wallets_df vesting_pairs_df) ->
  (0 < bw_amount (snd (snd h)) - snd (fst (snd h)))%Z.
Proof.
  unfold stage3_hits. intros H. apply in_flat_map in H. destruct H as (row & _ & H).
  destruct (stage3_row_hit stage2_df bitwave_df wallets_df vesting_pairs_df row)
    as [[[a e] t]|] eqn:Eh; [|destruct H].
  destruct H as [<- | []]. cbn [fst snd].
  apply stage3_row_hit_account in Eh. destruct Eh as (_ & _ & _ & Em).
  apply find_some in Em. destruct Em as [_ Em].
  apply reward_candidate_iff in Em. lia.
Qed.

(** X14. The three tables stage 3 produces go together: the ledger rows,
    the display rows and the match records the run adds have the same
    length, and the [i]-th of each carries the same amount, which is
    positive; the [i]-th display row has the date of the [i]-th ledger
    row.  Stage 3 draws one id per row it emits and none for a row it
    skips. *)
Theorem stage3_tables_go_together (stage1_df : list Stage1Row) (w : World) :
  let r := process_stage_3 now disk_ok stage1_df stage2_df bitwave_df wallets_df
                           vesting_pairs_df w in
  let ledger := fst (fst r) in
  let display := snd (fst r) in
  let matches := stage3_matches stage1_df stage2_df bitwave_df wallets_df
                                vesting_pairs_df in
  map amount ledger = map calculated_amount matches
  /\ map disp_Amount display = map calculated_amount matches
  /\ map disp_Date display = map (fun e => dt_date (time e)) ledger
  /\ Forall (fun e => (0 < amount e)%Z) ledger
  /\ issued (snd r) = issued w + List.length ledger
  /\ loaded_counter (snd r) = (loaded_counter w + Z.of_nat (List.length ledger))%Z.
Proof.
  intros r ledger display matches.
  destruct (process_stage_3_eq stage1_df w) as (E1 & E2 & E3 & E4).
  fold r in E1, E2, E3, E4. fold ledger in E1. fold display in E2.
  set (hits := stage3_hits stage1_df stage2_df bitwave_df wallets_df vesting_pairs_df)
    in *.
  destruct (stage3_rows_amounts hits (issued w) (loaded_counter w))
    as (A1 & A2 & A3 & A4).
  assert (Em : map calculated_amount matches
               = map (fun h => (bw_amount (snd (snd h)) - snd (fst (snd h)))%Z) hits).
  { unfold matches. rewrite stage3_matches_of_hits, map_map. reflexivity. }
  assert (El : List.length ledger = List.length hits)
    by (rewrite E1, length_map; apply stage3_rows_length).
  split; [rewrite E1, map_map, Em; exact A1|].
  split; [rewrite E2, map_map, Em; exact A2|].
  split; [rewrite E1, E2, !map_map, A4; now rewrite A3|].
  split; [|rewrite El; auto].
  apply Forall_forall. intros e He.
  assert (Ha : In (amount e) (map amount ledger)) by (now apply in_map).
  rewrite E1, map_map, A1 in Ha. apply in_map_iff in Ha.
  destruct Ha as (h & <- & Hh). now apply (stage3_hits_positive stage1_df).
Qed.

(** X15. In one session the ledger ids of the import files never collide:
    the ids of the entries stage 2 emits and the ids of the reward entries
    a later run of stage 3 emits are pairwise distinct (the clock showing
    four-digit years). *)
Theorem ledger_ids_distinct_across_stages
        (stage1_df stage1_df' : list Stage1Row) (w : World) :
  (forall i, valid_datetime (now i)) ->
  let r2 := process_stage_2 now disk_ok stage1_df wallets_df vesting_pairs_df w in
  let r3 := process_stage_3 now disk_ok stage1_df' stage2_df bitwave_df wallets_df
                            vesting_pairs_df (snd r2) in
  NoDup (map id (fst r2) ++ map id (fst (fst r3))).
Proof.
  intros Hv r2 r3.
  destruct (process_stage_2_eq now disk_ok wallets_df vesting_pairs_df stage1_df w)
    as (E1 & E2 & E3 & _).
  fold r2 in E1, E2, E3.
  destruct (process_stage_3_eq stage1_df' (snd r2)) as (F1 & _). fold r3 in F1.
  set (hits := stage3_hits stage1_df' stage2_df bitwave_df wallets_df vesting_pairs_df)
    in *.
  assert (Ids3 : map id (fst (fst r3))
                 = map (fun i => unique_id
                                   (strftime_YmdHMS (now (issued (snd r2) + i)))
                                   (loaded_counter (snd r2) + Z.of_nat i)%Z)
                       (seq 0 (List.length hits))).
  { rewrite F1, map_map. apply stage3_rows_ids. }
  rewrite Ids3, E1. apply NoDup_app.
  - now apply stage2_output_nodup.
  - now apply unique_ids_nodup.
  - intros x Hx Hy. apply stage2_output_ids in Hx. destruct Hx as (i & Hi & ->).
    apply in_map_iff in Hy. destruct Hy as (j & Ej & _).
    apply (unique_id_clock_inj now disk_ok _ _ _ _ Hv) in Ej.
    rewrite E2 in Ej. lia.
Qed.

(** X16. The display name of a reward is never the fallback for an
    unknown wallet: it is the Name of the first directory entry whose ID
    is the account of the reward's ledger row. *)
Theorem stage3_display_name_from_directory (row : Stage1Row) (w : World)
        (ledger : LedgerRow) (display : DisplayRow) :
  In (ledger, display)
     (fst (stage3_body now disk_ok stage2_df bitwave_df wallets_df vesting_pairs_df
                       row w)) ->
  exists wb e wa,
    wallets_df = (wb ++ e :: wa)%list
    /\ ID e = accountId ledger
    /\ (forall x, In x wb -> ID x <> accountId ledger)
    /\ disp_Wallet_Name display = Name e.
Proof.
  intros Hin.
  pose proof (stage3_body_eq now disk_ok stage2_df bitwave_df wallets_df
                             vesting_pairs_df row w) as B.
  cbn zeta in B.
  destruct (stage3_row_hit stage2_df bitwave_df wallets_df vesting_pairs_df row)
    as [[[a e] t]|] eqn:Eh.
  - destruct B as (B & _). rewrite B in Hin. destruct Hin as [E | []].
    injection E as <- <-. cbn [accountId reward_row disp_Wallet_Name].
    apply stage3_row_hit_account in Eh. destruct Eh as (Ha & _).
    apply deposit_account_pair in Ha. destruct Ha as (_ & p & _ & _ & _ & _ & Hf).
    exact (wallet_name_of_known_id _ _ _ Hf).
  - destruct B as (B & _). rewrite B in Hin. destruct Hin.
Qed.

(** X17. With unique IDs in the wallet directory, resolving the deposit
    account and naming it again gives back the beneficiary: the display
    name of a reward is the beneficiary wallet of the first vesting pair
    of the row's wallet. *)
Theorem stage3_display_name_is_beneficiary (row : Stage1Row) (w : World)
        (ledger : LedgerRow) (display : DisplayRow) :
  NoDup (map ID wallets_df) ->
  In (ledger, display)
     (fst (stage3_body now disk_ok stage2_df bitwave_df wallets_df vesting_pairs_df
                       row w)) ->
  exists before p after,
    vesting_pairs_df = (before ++ p :: after)%list
    /\ Originating_Wallet p = Wallet_Name row
    /\ (forall q, In q before -> Originating_Wallet q <> Wallet_Name row)
    /\ disp_Wallet_Name display = Beneficiary_Wallet p.
Proof.
  intros N Hin.
  pose proof (stage3_body_eq now disk_ok stage2_df bitwave_df wallets_df
                             vesting_pairs_df row w) as B.
  cbn zeta in B.
  destruct (stage3_row_hit stage2_df bitwave_df wallets_df vesting_pairs_df row)
    as [[[a e] t]|] eqn:Eh.
  - destruct B as (B & _). rewrite B in Hin. destruct Hin as [E | []].
    injection E as <- <-. cbn [disp_Wallet_Name].
    apply stage3_row_hit_account in Eh. destruct Eh as (Ha & _).
    apply deposit_account_pair in Ha.
    destruct Ha as (before & p & after & Hl & Hp & Hb & Hf).
    exists before, p, after. split; [exact Hl|]. split; [exact Hp|].
    split; [exact Hb|].
    destruct (wallet_name_of_known_id _ _ _ Hf) as (wb & m & wa & Hw & Hm & _ & ->).
    apply first_id_named_in in Hf. destruct Hf as (m' & Hm' & Hn & Hi).
    assert (Em : m = m').
    { apply (nodup_map_inj ID wallets_df); auto; [|congruence].
      rewrite Hw. apply in_or_app. right. now left. }
    now subst m'.
  - destruct B as (B & _). rewrite B in Hin. destruct Hin.
Qed.

End Stage3Whole.

(* ================================================================== *)
(** * The date in a blockchain id *)
(* ================================================================== *)

Lemma zfill2_inj a b :
  a < 100 -> b < 100 -> zfill 2 (digits a) = zfill 2 (digits b) -> a = b.
Proof.
  intros _ _ E. pose proof (parse_nat_zfill 2 a) as P.
  rewrite E, parse_nat_zfill in P. congruence.
Qed.

Lemma zfill2_length a : a < 100 -> String.length (zfill 2 (digits a)) = 2.
Proof. intros H. apply length_zfill. now apply length_digits_small. Qed.

(** X18. The date a blockchain id ends with, [%m%d%y], has six digits and
    tells month, day and the last two digits of the year: two valid dates
    give the same six digits exactly when they agree on these, so dates a
    century apart are not told apart. *)
Theorem blockchain_date_up_to_century (d1 d2 : date) :
  valid_date d1 -> valid_date d2 ->
  String.length (strftime_mdy d1) = 6
  /\ all_digits (strftime_mdy d1) = true
  /\ (strftime_mdy d1 = strftime_mdy d2
      <-> month d1 = month d2 /\ day d1 = day d2
          /\ year d1 mod 100 = year d2 mod 100).
Proof.
  intros [Hm1 Hd1] [Hm2 Hd2].
  assert (Hy1 : year d1 mod 100 < 100) by (apply Nat.mod_upper_bound; lia).
  assert (Hy2 : year d2 mod 100 < 100) by (apply Nat.mod_upper_bound; lia).
  unfold strftime_mdy. split; [|split; [|split]].
  - rewrite !length_append, !zfill2_length by lia. reflexivity.
  - now rewrite !all_digits_append, !all_digits_zfill.
  - intros E.
    apply append_inj_length in E; [|rewrite !zfill2_length by lia; reflexivity].
    destruct E as [Em E].
    apply append_inj_length in E; [|rewrite !zfill2_length by lia; reflexivity].
    destruct E as [Ed Ey].
    apply zfill2_inj in Em, Ed, Ey; lia.
  - intros (-> & -> & ->). reflexivity.
Qed.

(* ================================================================== *)
(** * The further properties on the sample session *)
(* ================================================================== *)

Lemma sample_ids_nonempty : forall e, In e Sample.wallets -> ID e <> "".
Proof. intros e [<- | [<- | [<- | [<- | []]]]]; discriminate. Qed.

Lemma sample_ids_unique : NoDup (map ID Sample.wallets).
Proof.
  cbn. repeat constructor; cbn; intuition discriminate.
Qed.

Lemma sample_rest_without_prefix : forall a b : string, "TeamA" <> a ++ "Aptos " ++ b.
Proof.
  intros a b E. apply (f_equal String.length) in E.
  rewrite !length_append in E. cbn in E. lia.
Qed.

Lemma sample_reward_emitted :
  In (fst Sample.reward, snd Sample.reward)
     (fst (stage3_body Sample.clock Sample.disk_up Sample.stage2 Sample.bitwave
                       Sample.wallets Sample.pairs
                       (mkStage1Row Sample.jan5 "Aptos TeamA" 100 500) Sample.fresh)).
Proof. vm_compute. left. reflexivity. Qed.

(** X3 on the sample: tx1, on 8 January at 01:00, is in the window of
    5 January. *)
Lemma stage3_window_days_witness :
  in_window Sample.jan5
            (mkBitwaveRow "tx1" (mkdatetime (mkdate 2024 1 8) 1 0 0 0) "W2" 112)
  = true.
Proof.
  apply (stage3_window_days Sample.jan5
           (mkBitwaveRow "tx1" (mkdatetime (mkdate 2024 1 8) 1 0 0 0) "W2" 112)).
  - unfold valid_time, ns_per_second. cbn. lia.
  - right. left. vm_compute. split; reflexivity.
Defined.

(** X5 on the sample: two ids, a new session, three more ids. *)
Lemma ids_unique_across_sessions_witness :
  let first := get_multiple_ids Sample.clock Sample.disk_up 2
                                (snd (get_id_generator Sample.stored7)) in
  let second := get_multiple_ids Sample.clock Sample.disk_up 3
                                 (snd (get_id_generator (new_session (snd first)))) in
  NoDup (fst first ++ fst second).
Proof.
  pose proof (ids_unique_across_sessions Sample.clock Sample.disk_up Sample.stored7 2 3
                sample_clock_valid) as H.
  cbn zeta in H. apply H; [lia | reflexivity].
Defined.


(** X8 on the sample: the row sent to 0xZZZ keeps the address as name. *)
Lemma stage1_unknown_address_kept_witness :
  In (mkStage1Row Sample.jan5 "0xZZZ" 7 8)
     (fst (process_stage_1 (Sample.stray :: Sample.anchorage) Sample.wallets
                           Sample.fresh)).
Proof.
  apply (stage1_unknown_address_kept (Sample.stray :: Sample.anchorage) Sample.wallets
           Sample.fresh Sample.stray).
  - left. reflexivity.
  - reflexivity.
  - intros e [<- | [<- | [<- | [<- | []]]]]; discriminate.
Defined.


(** X11 on the sample: "Aptos TeamA" is searched as "TeamA vesting tokens". *)
Lemma withdrawal_name_with_single_prefix_witness :
  withdrawal_search_name "Aptos TeamA" = "TeamA vesting tokens".
Proof.
  apply (withdrawal_name_with_single_prefix "TeamA" sample_rest_without_prefix).
Defined.

(** X12 on the sample: one row, two entries, no error. *)
Lemma stage2_every_half_emitted_or_reported_witness :
  List.length (fst (process_stage_2 Sample.clock Sample.disk_up Sample.stage1
                                    Sample.wallets Sample.pairs Sample.fresh))
  + List.length (stage2_messages Sample.wallets Sample.pairs Sample.stage1)
  = 2 * List.length Sample.stage1.
Proof.
  pose proof (stage2_every_half_emitted_or_reported
                Sample.clock Sample.disk_up Sample.wallets Sample.pairs Sample.stage1
                Sample.fresh) as H.
  cbn zeta in H.
  destruct (H ltac:(discriminate) sample_ids_nonempty) as (_ & H2 & _).
  exact H2.
Defined.

(** X13 on the sample: the baseline of W2 on 5 January is 100. *)
Lemma stage2_baseline_found_by_stage3_witness :
  exists before first after,
    Sample.stage1 = (before ++ first :: after)%list
    /\ _get_stage2_deposit_amount
         (fst (process_stage_2 Sample.clock Sample.disk_up Sample.stage1 Sample.wallets
                               Sample.pairs Sample.fresh))
         "W2" Sample.jan5
       = Some (Sum_Quantity first).
Proof.
  pose proof (stage2_baseline_found_by_stage3
                Sample.clock Sample.disk_up Sample.wallets Sample.pairs Sample.stage1
                Sample.fresh (mkStage1Row Sample.jan5 "Aptos TeamA" 100 500) "W2") as H.
  cbn zeta in H.
  destruct (H ltac:(left; reflexivity) ltac:(reflexivity) ltac:(reflexivity))
    as (before & first & after & H1 & _ & _ & H4).
  exists before, first, after. split; [exact H1 | exact H4].
Defined.

(** X15 on the sample: stage 2, then stage 3, three distinct ids. *)
Lemma ledger_ids_distinct_across_stages_witness :
  let r2 := process_stage_2 Sample.clock Sample.disk_up Sample.stage1 Sample.wallets
                            Sample.pairs Sample.fresh in
  let r3 := process_stage_3 Sample.clock Sample.disk_up Sample.stage1 (fst r2)
                            Sample.bitwave Sample.wallets Sample.pairs (snd r2) in
  NoDup (map id (fst r2) ++ map id (fst (fst r3))).
Proof.
  apply (ledger_ids_distinct_across_stages
           Sample.clock Sample.disk_up
           (fst (process_stage_2 Sample.clock Sample.disk_up Sample.stage1 Sample.wallets
                                 Sample.pairs Sample.fresh))
           Sample.bitwave Sample.wallets Sample.pairs Sample.stage1 Sample.stage1
           Sample.fresh sample_clock_valid).
Defined.

(** X16 on the sample: the reward is shown under a directory name. *)
Lemma stage3_display_name_from_directory_witness :
  exists wb e wa,
    Sample.wallets = (wb ++ e :: wa)%list
    /\ ID e = accountId (fst Sample.reward)
    /\ disp_Wallet_Name (snd Sample.reward) = Name e.
Proof.
  destruct (stage3_display_name_from_directory
              Sample.clock Sample.disk_up Sample.stage2 Sample.bitwave Sample.wallets
              Sample.pairs (mkStage1Row Sample.jan5 "Aptos TeamA" 100 500) Sample.fresh
              (fst Sample.reward) (snd Sample.reward) sample_reward_emitted)
    as (wb & e & wa & H1 & H2 & _ & H4).
  exists wb, e, wa. auto.
Defined.

(** X17 on the sample: the reward is shown under "TeamA Beneficiary". *)
Lemma stage3_display_name_is_beneficiary_witness :
  exists p, In p Sample.pairs
            /\ disp_Wallet_Name (snd Sample.reward) = Beneficiary_Wallet p.
Proof.
  destruct (stage3_display_name_is_beneficiary
              Sample.clock Sample.disk_up Sample.stage2 Sample.bitwave Sample.wallets
              Sample.pairs (mkStage1Row Sample.jan5 "Aptos TeamA" 100 500) Sample.fresh
              (fst Sample.reward) (snd Sample.reward) sample_ids_unique
              sample_reward_emitted)
    as (before & p & after & H1 & _ & _ & H4).
  exists p. split; [|exact H4]. rewrite H1. apply in_or_app. right. now left.
Defined.

(** X18 on the sample: 5 January 2024 and 5 January 1924. *)
Lemma blockchain_date_up_to_century_witness :
  strftime_mdy (mkdate 2024 1 5) = strftime_mdy (mkdate 1924 1 5).
Proof.
  apply (blockchain_date_up_to_century (mkdate 2024 1 5) (mkdate 1924 1 5)).
  - unfold valid_date. cbn. lia.
  - unfold valid_date. cbn. lia.
  - cbn. auto.
Defined.
